(** * Turnover analysis and adaptive polling interval of the gift-card deal bot

    A shallow embedding of
    - [DatabaseDealMonitor._calculate_turnover_stats] (database_monitor.py),
    - [AdaptiveScraper.set_frequency_bounds], [AdaptiveScraper.adjust_frequency]
      and [AdaptiveScraper._log_adjustment] (adaptive_scraper.py),
    followed by the properties of these functions.

    Conventions.
    - Python [int] is [Z].  Python [float] metrics (turnover rate, lifetimes,
      the check interval) are exact rationals [Q]: the functions below only
      add, multiply, divide and compare them.
    - A Python [dict] with string keys is a [gmap string _]; [d.get(k, v)] is
      [default v (d !! k)].
    - [datetime.now()] is read from the environment [Env]; one call of a
      method sees one reading of the clock.
    - The record [AdaptiveScraper] holds an adjustment history of the shape
      [_load_adjustment_history] builds when there is no file; the record
      [LoadedScraper] holds the history as [json.load] returned it, on
      which [_log_adjustment] can raise.  Logging calls are left out.
    - Where a property depends on rounding, the computation is repeated in
      binary64 ([avg_lifetime_minutes_float]). *)

From Stdlib Require Import ZArith QArith Qabs Lia Lqa List.
From Stdlib Require Floats.PrimFloat.
From stdpp Require Import base gmap strings list fin_maps.

Local Open Scope Z_scope.

(* ================================================================== *)
(** ** Numbers *)

(** Python's [x < y] and [x > y] on metric values. *)
Definition Qltb (x y : Q) : bool :=
  match (x ?= y)%Q with Lt => true | _ => false end.

Definition Qgtb (x y : Q) : bool := Qltb y x.

(** [sum(xs)] on a list of floats. *)
Definition Qsum (xs : list Q) : Q := foldr Qplus 0%Q xs.

(* ================================================================== *)
(** ** database_monitor.py *)

(** [list.sort()] on a list of check numbers. *)
Fixpoint sort_insert (x : Z) (l : list Z) : list Z :=
  match l with
  | [] => [x]
  | y :: l' => if x <=? y then x :: l else y :: sort_insert x l'
  end.

Definition sort (l : list Z) : list Z := foldr sort_insert [] l.

(** The statistics dictionaries returned by the analyzer. *)
Abbreviation Stats := (gmap string Q).
Abbreviation Timeline := (gmap string (list Z)).

(** The state threaded through the [for deal_hash, appearances in ...] loop. *)
Record LoopState := mkLoop {
  deal_lifespans : list Q;
  disappeared_deals : Z
}.

(** One iteration of the loop of [_calculate_turnover_stats]. *)
Definition loop_body (num_snapshots : Z) (interval_minutes : Q)
    (acc : LoopState) (item : string * list Z) : LoopState :=
  let appearances := sort (snd item) in
  if (length appearances <? 2)%nat then acc            (* continue *)
  else
    let first_seen := hd 0 appearances in               (* appearances[0]  *)
    let last_seen := List.last appearances 0 in         (* appearances[-1] *)
    let disappeared :=
      if last_seen <? num_snapshots
      then disappeared_deals acc + 1
      else disappeared_deals acc in
    let lifespan_checks := last_seen - first_seen + 1 in
    let lifespan_minutes := (inject_Z lifespan_checks * interval_minutes)%Q in
    mkLoop (deal_lifespans acc ++ [lifespan_minutes]) disappeared.

Definition run_loop (num_snapshots : Z) (interval_minutes : Q)
    (items : list (string * list Z)) : LoopState :=
  foldl (loop_body num_snapshots interval_minutes) (mkLoop [] 0) items.

(** [DatabaseDealMonitor._calculate_turnover_stats]; the [source_name]
    argument only reaches the logger.  The loop visits the entries of the
    dictionary once each; its results (a sum, a length and a counter) do not
    depend on the order of the visit. *)
Definition _calculate_turnover_stats (deal_timeline : Timeline)
    (num_snapshots : Z) (interval_minutes : Q) : Stats :=
  let total_deals := Z.of_nat (size deal_timeline) in
  if total_deals =? 0 then {[ "total_deals_seen" := 0%Q ]}
  else
    let st := run_loop num_snapshots interval_minutes (map_to_list deal_timeline) in
    let avg_lifetime_minutes :=
      match deal_lifespans st with
      | [] => 0%Q
      | _ => (Qsum (deal_lifespans st)
              / inject_Z (Z.of_nat (length (deal_lifespans st))))%Q
      end in
    let turnover_rate :=
      if total_deals >? 0
      then (inject_Z (disappeared_deals st) / inject_Z total_deals)%Q
      else 0%Q in
    <[ "total_deals_seen" := inject_Z total_deals ]>
      (<[ "disappeared_deals" := inject_Z (disappeared_deals st) ]>
        (<[ "turnover_rate" := turnover_rate ]>
          {[ "avg_lifetime_minutes" := avg_lifetime_minutes ]})).

(** Readers of a statistics dictionary: [stats.get(key, default)]. *)
Definition get (key : string) (dflt : Q) (stats : Stats) : Q :=
  default dflt (stats !! key).

(** Per-item observation lists that are strictly increasing. *)
Fixpoint strictly_increasing (l : list Z) : bool :=
  match l with
  | [] => true
  | x :: l' =>
      match l' with
      | [] => true
      | y :: _ => (x <? y) && strictly_increasing l'
      end
  end.

(** The items the early [continue] does not skip, and among all items the
    ones last seen before the final snapshot. *)
Definition last_before (num_snapshots : Z) (item : string * list Z) : bool :=
  List.last (sort (snd item)) 0 <? num_snapshots.

Definition seen_twice (item : string * list Z) : bool :=
  (2 <=? length (snd item))%nat.

(** An item is counted as disappeared exactly when it passes the
    [len(appearances) < 2] test and was last seen before the end. *)
Definition counted (num_snapshots : Z) (item : string * list Z) : bool :=
  seen_twice item && last_before num_snapshots item.

(** A three-snapshot session: ["b"] is present throughout, ["a"] is seen in
    the first snapshot only. *)
Definition session_a_vanishes : Timeline :=
  <[ "a" := [1] ]> {[ "b" := [1; 2; 3] ]}.

(** A session whose only item is seen at checks 2 and 5. *)
Definition session_one_item : Timeline := {[ "a" := [2; 5] ]}.

(* ================================================================== *)
(** ** adaptive_scraper.py *)

(** A value stored in the turnover dictionary handed to [adjust_frequency]:
    a per-source statistics dictionary, or anything that is not a
    dictionary (the session id, [None], ...), on which [.get] raises. *)
Inductive Value :=
| VStats (stats : Stats)
| VOther.

Abbreviation TurnoverData := (gmap string Value).

Definition Time : Type := Z.

(** What the process reads from outside during one call:
    - [now]: the clock, [datetime.now()];
    - [quick_analysis]: the outcome of [monitor.run_monitoring_session]
      followed by [monitor.analyze_session]; the outer [None] stands for an
      exception, the inner one for a returned [None];
    - [log_file_writable]: whether [open(adjustment_log_file, 'w')]
      succeeds. *)
Record Env := mkEnv {
  now : Time;
  quick_analysis : option (option TurnoverData);
  log_file_writable : bool
}.

Record AdjustmentMetrics := mkMetrics {
  gcx_turnover : Q;
  cardcash_turnover : Q;
  avg_lifetime_minutes : Q;
  metrics_scrape_count : Z
}.

Record Adjustment := mkAdjustment {
  timestamp : Time;
  old_frequency : Z;
  new_frequency : Z;
  reason : string;
  confidence : string;
  metrics : AdjustmentMetrics
}.

Record HistoryStats := mkHistoryStats {
  total_adjustments : Z;
  increases : Z;
  decreases : Z;
  last_updated : Time
}.

Record AdjustmentHistory := mkHistory {
  adjustments : list Adjustment;
  stats : HistoryStats
}.

(** The fields of an [AdaptiveScraper] object that its configuration and
    adjustment methods read or write. *)
Record AdaptiveScraper := mkScraper {
  current_frequency : Z;
  min_frequency : Z;
  max_frequency : Z;
  adjustment_threshold : Z;
  scrape_count : Z;
  running : bool;
  last_adjustment_time : option Time;
  adjustment_history : AdjustmentHistory
}.

Definition with_current_frequency (f : Z) (self : AdaptiveScraper) :=
  mkScraper f (min_frequency self) (max_frequency self)
    (adjustment_threshold self) (scrape_count self) (running self)
    (last_adjustment_time self) (adjustment_history self).

Definition with_last_adjustment_time (t : option Time) (self : AdaptiveScraper) :=
  mkScraper (current_frequency self) (min_frequency self) (max_frequency self)
    (adjustment_threshold self) (scrape_count self) (running self)
    t (adjustment_history self).

Definition with_adjustment_history (h : AdjustmentHistory) (self : AdaptiveScraper) :=
  mkScraper (current_frequency self) (min_frequency self) (max_frequency self)
    (adjustment_threshold self) (scrape_count self) (running self)
    (last_adjustment_time self) h.

(** [AdaptiveScraper.__init__] when no history file exists. *)
Definition init (env : Env) (initial_frequency_minutes : Z) : AdaptiveScraper :=
  mkScraper initial_frequency_minutes 10 240 5 0 false None
    (mkHistory [] (mkHistoryStats 0 0 0 (now env))).

(** [AdaptiveScraper.set_frequency_bounds]. *)
Definition set_frequency_bounds (min_minutes max_minutes : Z)
    (self : AdaptiveScraper) : AdaptiveScraper :=
  mkScraper (current_frequency self)
    (Z.max 5 min_minutes)          (* Absolute minimum of 5 minutes *)
    (Z.min 360 max_minutes)        (* Absolute maximum of 6 hours *)
    (adjustment_threshold self) (scrape_count self) (running self)
    (last_adjustment_time self) (adjustment_history self).

(** [AdaptiveScraper._save_adjustment_history]: the in-memory effect is the
    [last_updated] stamp, written once the file is open; a failure to open
    it is logged and swallowed. *)
Definition _save_adjustment_history (env : Env) (self : AdaptiveScraper)
    : AdaptiveScraper :=
  if log_file_writable env then
    let h := adjustment_history self in
    let s := stats h in
    with_adjustment_history
      (mkHistory (adjustments h)
         (mkHistoryStats (total_adjustments s) (increases s) (decreases s)
            (now env)))
      self
  else self.

(** [metrics.get(key, {}).get(field, 0)] in [_log_adjustment], for a
    dictionary whose per-source entries are dictionaries. *)
Definition source_stats (key : string) (turnover_data : TurnoverData)
    : option Stats :=
  match turnover_data !! key with
  | None => Some ∅
  | Some (VStats s) => Some s
  | Some VOther => None
  end.

Definition source_metric (key field : string) (dflt : Q)
    (turnover_data : TurnoverData) : Q :=
  get field dflt (default ∅ (source_stats key turnover_data)).

(** [AdaptiveScraper._log_adjustment]. *)
Definition _log_adjustment (env : Env) (old_freq new_freq : Z)
    (reason confidence : string) (metrics : TurnoverData)
    (self : AdaptiveScraper) : AdaptiveScraper :=
  let adjustment :=
    mkAdjustment (now env) old_freq new_freq reason confidence
      (mkMetrics
         (source_metric "gcx_stats" "turnover_rate" 0 metrics)
         (source_metric "cardcash_stats" "turnover_rate" 0 metrics)
         ((source_metric "gcx_stats" "avg_lifetime_minutes" 0 metrics
           + source_metric "cardcash_stats" "avg_lifetime_minutes" 0 metrics)
          / 2)%Q
         (scrape_count self)) in
  let h := adjustment_history self in
  let s := stats h in
  let s1 := mkHistoryStats (total_adjustments s + 1) (increases s)
              (decreases s) (last_updated s) in
  let s2 :=
    if new_freq <? old_freq
    then mkHistoryStats (total_adjustments s1) (increases s1 + 1)
           (decreases s1) (last_updated s1)
    else mkHistoryStats (total_adjustments s1) (increases s1)
           (decreases s1 + 1) (last_updated s1) in
  _save_adjustment_history env
    (with_adjustment_history (mkHistory (adjustments h ++ [adjustment]) s2) self).

(** Python's [not turnover_data]: [None] and the empty dictionary. *)
Definition falsy (turnover_data : option TurnoverData) : bool :=
  match turnover_data with
  | None => true
  | Some d => (size d =? 0)%nat
  end.

(** The head of the [try] block of [adjust_frequency]: the two averaged
    metrics, or [None] when reading them raises (the data is [None], or a
    per-source entry is not a dictionary). *)
Definition extract_metrics (turnover_data : option TurnoverData)
    : option (Q * Q) :=
  d ← turnover_data;
  gcx_stats ← source_stats "gcx_stats" d;
  cardcash_stats ← source_stats "cardcash_stats" d;
  let gcx_turnover := get "turnover_rate" 0 gcx_stats in
  let cardcash_turnover := get "turnover_rate" 0 cardcash_stats in
  let avg_turnover := ((gcx_turnover + cardcash_turnover) / 2)%Q in
  let gcx_lifetime := get "avg_lifetime_minutes" 120 gcx_stats in
  let cardcash_lifetime := get "avg_lifetime_minutes" 120 cardcash_stats in
  let avg_lifetime := ((gcx_lifetime + cardcash_lifetime) / 2)%Q in
  Some (avg_turnover, avg_lifetime).

(** The outcome of the [if]/[elif] chain: the interval it assigns, and the
    two strings it sets. *)
Record Decision := mkDecision {
  decided_frequency : Z;
  decided_confidence : string;
  decided_reason : string
}.

Definition apply_rules (self : AdaptiveScraper) (avg_turnover avg_lifetime : Q)
    : Decision :=
  let cur := current_frequency self in
  if Qgtb avg_turnover 50 then
    mkDecision (Z.max (min_frequency self) (Z.min 15 (cur - 15)))
      "high" "very high turnover rate"
  else if Qgtb avg_turnover 30 then
    mkDecision (Z.max (min_frequency self) (Z.min 30 (cur - 10)))
      "high" "high turnover rate"
  else if Qltb avg_turnover 5 && Qgtb avg_lifetime 180 then
    mkDecision (Z.min (max_frequency self) (Z.max 120 (cur + 20)))
      "high" "very low turnover and long deal lifetime"
  else if Qltb avg_turnover 10 then
    mkDecision (Z.min (max_frequency self) (cur + 10))
      "medium" "low turnover rate"
  else if Qltb avg_lifetime 30 then
    mkDecision (Z.max (min_frequency self) (cur - 10))
      "high" "very short deal lifetime"
  else
    mkDecision cur "low" "metrics within normal range".

(** "Ensure frequency stays within bounds". *)
Definition clamp (self : AdaptiveScraper) (f : Z) : Z :=
  Z.max (min_frequency self) (Z.min (max_frequency self) f).

(** The data the [try] block works on: the caller's, or the quick
    analysis' when the caller gave none.  The outer [None] is the early
    [return] after a failed analysis. *)
Definition effective_data (env : Env) (turnover_data : option TurnoverData)
    : option (option TurnoverData) :=
  if falsy turnover_data then quick_analysis env else Some turnover_data.

(** [AdaptiveScraper.adjust_frequency].  The method returns [None] on every
    path; its effect is the new state of the object. *)
Definition adjust_frequency (env : Env) (turnover_data : option TurnoverData)
    (self : AdaptiveScraper) : AdaptiveScraper :=
  if scrape_count self <? adjustment_threshold self then self
  else
    match effective_data env turnover_data with
    | None => self
    | Some turnover_data =>
        match extract_metrics turnover_data with
        | None => self
        | Some (avg_turnover, avg_lifetime) =>
            let old_frequency := current_frequency self in
            let d := apply_rules self avg_turnover avg_lifetime in
            let new_frequency := clamp self (decided_frequency d) in
            let self := with_current_frequency new_frequency self in
            let self :=
              if negb (old_frequency =? new_frequency) then
                _log_adjustment env old_frequency new_frequency
                  (decided_reason d) (decided_confidence d)
                  (default ∅ turnover_data) self
              else self in
            with_last_adjustment_time (Some (now env)) self
        end
    end.

(** The rule [adjust_frequency] applies on given data, when it reaches the
    rule table. *)
Definition fired_rule (env : Env) (turnover_data : option TurnoverData)
    (self : AdaptiveScraper) : option string :=
  if scrape_count self <? adjustment_threshold self then None
  else
    d ← effective_data env turnover_data;
    m ← extract_metrics d;
    Some (decided_reason (apply_rules self m.1 m.2)).

(** [self.scrape_count += 1], [n] times (the scraping thread). *)
Definition after_scrapes (n : Z) (self : AdaptiveScraper) : AdaptiveScraper :=
  mkScraper (current_frequency self) (min_frequency self) (max_frequency self)
    (adjustment_threshold self) (scrape_count self + n) (running self)
    (last_adjustment_time self) (adjustment_history self).

(** The state [adjust_frequency] leaves behind once it has its metrics. *)
Definition adjusted (env : Env) (turnover_data : option TurnoverData)
    (avg_turnover avg_lifetime : Q) (self : AdaptiveScraper) : AdaptiveScraper :=
  let old := current_frequency self in
  let d := apply_rules self avg_turnover avg_lifetime in
  let new := clamp self (decided_frequency d) in
  with_last_adjustment_time (Some (now env))
    (if negb (old =? new)
     then _log_adjustment env old new (decided_reason d) (decided_confidence d)
            (default ∅ turnover_data) (with_current_frequency new self)
     else with_current_frequency new self).

(** Inputs used in the examples below: an environment, statistics and
    turnover dictionaries with given entries, and a scraper created with
    initial interval [cur], configured with [set_frequency_bounds lo hi],
    that has completed five scrapes. *)
Definition env0 : Env := mkEnv 1000 None true.

Definition stats_of (turnover_rate lifetime : Q) : Stats :=
  <[ "turnover_rate" := turnover_rate ]>
    {[ "avg_lifetime_minutes" := lifetime ]}.

Definition data_of (gcx cardcash : Stats) : TurnoverData :=
  <[ "gcx_stats" := VStats gcx ]> {[ "cardcash_stats" := VStats cardcash ]}.

Definition scraper0 (cur lo hi : Z) : AdaptiveScraper :=
  after_scrapes 5 (set_frequency_bounds lo hi (init env0 cur)).

(** The dictionary [analyze_session] builds when neither source showed an
    item. *)
Definition no_items_data : TurnoverData :=
  data_of (_calculate_turnover_stats ∅ 3 10) (_calculate_turnover_stats ∅ 3 10).

(** A three-snapshot session in which three items of five are gone by the
    last snapshot: a turnover rate of 3/5. *)
Definition session_three_of_five : Timeline :=
  <[ "a" := [1; 2] ]> (<[ "b" := [1; 2] ]> (<[ "c" := [1; 2] ]>
    (<[ "d" := [1; 2; 3] ]> {[ "e" := [1; 2; 3] ]}))).

(* ================================================================== *)
(** ** The life of an [AdaptiveScraper] object *)

(** [scraper.adjustment_threshold = args.threshold] in [main]. *)
Definition with_adjustment_threshold (threshold : Z) (self : AdaptiveScraper)
    : AdaptiveScraper :=
  mkScraper (current_frequency self) (min_frequency self) (max_frequency self)
    threshold (scrape_count self) (running self)
    (last_adjustment_time self) (adjustment_history self).

(** The states an object created with a fresh history and the initial
    interval [initial] can be in: the methods and assignments that write the
    fields modelled here. *)
Inductive reachable_from (initial : Z) : AdaptiveScraper -> Prop :=
| reach_init (env : Env) :
    reachable_from initial (init env initial)
| reach_bounds (lo hi : Z) (self : AdaptiveScraper) :
    reachable_from initial self ->
    reachable_from initial (set_frequency_bounds lo hi self)
| reach_threshold (threshold : Z) (self : AdaptiveScraper) :
    reachable_from initial self ->
    reachable_from initial (with_adjustment_threshold threshold self)
| reach_scrape (self : AdaptiveScraper) :
    reachable_from initial self ->
    reachable_from initial (after_scrapes 1 self)
| reach_adjust (env : Env) (turnover_data : option TurnoverData)
    (self : AdaptiveScraper) :
    reachable_from initial self ->
    reachable_from initial (adjust_frequency env turnover_data self).

(** Records that shorten, respectively lengthen, the interval. *)
Definition shortens (r : Adjustment) : bool := new_frequency r <? old_frequency r.
Definition lengthens (r : Adjustment) : bool := old_frequency r <? new_frequency r.

(** The summary counters agree with the list of records. *)
Definition counters_match_log (h : AdjustmentHistory) : Prop :=
  total_adjustments (stats h) = Z.of_nat (length (adjustments h))
  /\ increases (stats h) = Z.of_nat (length (List.filter shortens (adjustments h)))
  /\ decreases (stats h) = Z.of_nat (length (List.filter lengthens (adjustments h)))
  /\ Forall (fun r => old_frequency r <> new_frequency r) (adjustments h).

(** The records lead from [start] to [current], each beginning where the
    previous one ended. *)
Fixpoint chained (start : Z) (log : list Adjustment) (current : Z) : Prop :=
  match log with
  | [] => start = current
  | r :: log' => old_frequency r = start /\ chained (new_frequency r) log' current
  end.

(* ================================================================== *)
(** ** The scraping thread and the status report *)

(** One entry of [scrape_history]. *)
Record ScrapeEvent := mkScrapeEvent {
  scrape_timestamp : Time;
  duration_seconds : Q;
  frequency_minutes : Z
}.

(** The object together with [scrape_history], the field the record
    [AdaptiveScraper] above leaves out. *)
Record Poller := mkPoller {
  scraper : AdaptiveScraper;
  scrape_history : list ScrapeEvent
}.

(** What one pass of the scraping thread meets: the environment of a
    possible adjustment, the time the pass starts, the measured duration of
    [bot.process_deals()], and whether that call returned (rather than
    raised). *)
Record Pass := mkPass {
  pass_env : Env;
  start_time : Time;
  pass_duration : Q;
  process_deals_ok : bool
}.

(** One pass through the body of [while self.running] in
    [_scraping_thread], up to the wait for the next scrape, as this thread
    alone performs it.  A failure of [process_deals] leads to the handler,
    which only logs and sleeps. *)
Definition scraping_pass (x : Pass) (p : Poller) : Poller :=
  if negb (running (scraper p)) then p
  else if negb (process_deals_ok x) then p
  else
    let counted := after_scrapes 1 (scraper p) in
    let history :=
      scrape_history p
      ++ [mkScrapeEvent (start_time x) (pass_duration x)
            (current_frequency counted)] in
    let self :=
      if (adjustment_threshold counted <=? scrape_count counted)
         && (scrape_count counted mod 4 =? 0)
      then adjust_frequency (pass_env x) None counted
      else counted in
    mkPoller self history.

Definition scraping_passes (xs : list Pass) (p : Poller) : Poller :=
  foldl (fun p x => scraping_pass x p) p xs.

(** [l[-5:]]. *)
Definition last_five {A : Type} (l : list A) : list A :=
  skipn (length l - 5) l.

(** The dictionary returned by [get_status]; the time of the last
    adjustment is kept as a time rather than formatted. *)
Record Status := mkStatus {
  status_running : bool;
  current_frequency_minutes : Z;
  status_scrape_count : Z;
  last_adjustment : option Time;
  status_min_frequency : Z;
  status_max_frequency : Z;
  status_adjustment_threshold : Z;
  latest_scrapes : list ScrapeEvent
}.

(** [AdaptiveScraper.get_status]. *)
Definition get_status (p : Poller) : Status :=
  let self := scraper p in
  mkStatus (running self) (current_frequency self) (scrape_count self)
    (last_adjustment_time self) (min_frequency self) (max_frequency self)
    (adjustment_threshold self)
    (match scrape_history p with
     | [] => []
     | _ => last_five (scrape_history p)
     end).

(** [AdaptiveScraper.start_adaptive_scraping], as far as the object's
    fields go. *)
Definition start_adaptive_scraping (self : AdaptiveScraper) : AdaptiveScraper :=
  if running self then self
  else mkScraper (current_frequency self) (min_frequency self)
         (max_frequency self) (adjustment_threshold self) (scrape_count self)
         true (last_adjustment_time self) (adjustment_history self).

(** The number of passes in which [process_deals] returned. *)
Definition completed (xs : list Pass) : nat :=
  length (List.filter process_deals_ok xs).

(* ================================================================== *)
(** ** database_monitor.py: [analyze_session] *)

(** The two columns of a [deals] row that [analyze_session] reads. *)
Record Deal := mkDeal {
  deal_hash : string;
  deal_source : string
}.

(** A row of [snapshots] with the answer to the [snapshot_deals] query for
    it: one entry per linked row, [None] where the joined deal is null. *)
Record Snapshot := mkSnapshot {
  snapshot_id : Z;
  check_number : Z;
  snapshot_items : list (option Deal)
}.

Record Timelines := mkTimelines {
  gcx_deals_timeline : Timeline;
  cardcash_deals_timeline : Timeline
}.

(** [if deal_hash not in timeline: timeline[deal_hash] = []] followed by
    [timeline[deal_hash].append(check_num)]. *)
Definition record_presence (deal_hash : string) (check_num : Z)
    (timeline : Timeline) : Timeline :=
  <[ deal_hash := default [] (timeline !! deal_hash) ++ [check_num] ]> timeline.

(** The body of [for item in deals_response.data]. *)
Definition record_item (check_num : Z) (acc : Timelines) (item : option Deal)
    : Timelines :=
  match item with
  | None => acc                                           (* continue *)
  | Some deal =>
      if String.eqb (deal_source deal) "raise" then
        mkTimelines
          (record_presence (deal_hash deal) check_num (gcx_deals_timeline acc))
          (cardcash_deals_timeline acc)
      else if String.eqb (deal_source deal) "cardcash" then
        mkTimelines
          (gcx_deals_timeline acc)
          (record_presence (deal_hash deal) check_num
             (cardcash_deals_timeline acc))
      else acc
  end.

(** The body of [for snapshot in snapshots]. *)
Definition record_snapshot (acc : Timelines) (snapshot : Snapshot) : Timelines :=
  foldl (record_item (check_number snapshot)) acc (snapshot_items snapshot).

Definition build_timelines (snapshots : list Snapshot) : Timelines :=
  foldl record_snapshot (mkTimelines ∅ ∅) snapshots.

(** The statistics part of the dictionary [analyze_session] returns, [None]
    when the session row or its snapshots are missing.  [session] is the
    answer to the [monitoring_sessions] query, reduced to the column read
    here, and [snapshots] the answer to the [snapshots] query, which the
    database orders by check number. *)
Definition analyze_session_stats (session : option Q) (snapshots : list Snapshot)
    : option (Stats * Stats) :=
  match session with
  | None => None
  | Some check_interval_minutes =>
      match snapshots with
      | [] => None
      | _ =>
          let timelines := build_timelines snapshots in
          let num_snapshots := Z.of_nat (length snapshots) in
          Some (_calculate_turnover_stats (gcx_deals_timeline timelines)
                  num_snapshots check_interval_minutes,
                _calculate_turnover_stats (cardcash_deals_timeline timelines)
                  num_snapshots check_interval_minutes)
      end
  end.

(** The observations one item adds for [fingerprint] under [source]. *)
Definition item_listing (source fingerprint : string) (check_num : Z)
    (item : option Deal) : list Z :=
  match item with
  | Some deal =>
      if String.eqb (deal_source deal) source
         && String.eqb (deal_hash deal) fingerprint
      then [check_num] else []
  | None => []
  end.

(** The check numbers at which a snapshot lists [fingerprint] under
    [source], once per listing. *)
Definition listings (source fingerprint : string) (snapshot : Snapshot) : list Z :=
  flat_map (item_listing source fingerprint (check_number snapshot))
    (snapshot_items snapshot).

Definition presences (source fingerprint : string) (snapshots : list Snapshot)
    : list Z :=
  flat_map (listings source fingerprint) snapshots.

(** The value a timeline holds for a fingerprint with the given
    observations: no entry when there are none. *)
Definition entry_of (observations : list Z) : option (list Z) :=
  match observations with
  | [] => None
  | _ => Some observations
  end.

(* ================================================================== *)
(** ** database_monitor.py: [recommend_scraping_frequency] *)

(** A lifetime read with [stats.get("avg_lifetime_minutes", float('inf'))]. *)
Inductive Lifetime :=
| Finite (minutes : Q)
| Infinite.

Definition lifetime_of (stats : Stats) : Lifetime :=
  match stats !! "avg_lifetime_minutes" with
  | Some minutes => Finite minutes
  | None => Infinite
  end.

(** [x < y] on lifetimes, and [x < c] for a threshold [c]. *)
Definition lifetime_ltb (x y : Lifetime) : bool :=
  match x, y with
  | Finite a, Finite b => Qltb a b
  | Finite _, Infinite => true
  | Infinite, _ => false
  end.

Definition below (x : Lifetime) (c : Q) : bool := lifetime_ltb x (Finite c).

(** Python's [min(a, b)]: [b] when [b < a], else [a]. *)
Definition py_min (a b : Lifetime) : Lifetime :=
  if lifetime_ltb b a then b else a.

(** The inner function [get_recommendation]. *)
Definition get_recommendation (stats : Stats) (source_name : string) : string :=
  let avg_lifetime := get "avg_lifetime_minutes" 0 stats in
  if Qeq_bool avg_lifetime 0 then source_name +:+ ": No data available"
  else
    let choice :=
      if Qltb avg_lifetime 30 then
        ("Every 10-15 minutes", "Very high turnover - deals disappear quickly")
      else if Qltb avg_lifetime 60 then
        ("Every 20-30 minutes", "High turnover - frequent checking needed")
      else if Qltb avg_lifetime 120 then
        ("Every 30-60 minutes", "Moderate turnover - hourly checking sufficient")
      else if Qltb avg_lifetime 240 then
        ("Every 1-2 hours", "Low turnover - less frequent checking okay")
      else
        ("Every 2-4 hours", "Very low turnover - deals stay available longer") in
    source_name +:+ ": " +:+ fst choice +:+ " (" +:+ snd choice +:+ ")".

(** [needle in haystack] on strings. *)
Definition contains (needle haystack : string) : bool :=
  match String.index 0 needle haystack with
  | Some _ => true
  | None => false
  end.

(** [DatabaseDealMonitor._extract_minutes_from_recommendation]. *)
Definition _extract_minutes_from_recommendation (recommendation : string) : Z :=
  if contains "30 minutes" recommendation then 30
  else if contains "1 hour" recommendation then 60
  else if contains "2 hours" recommendation then 120
  else 60.

(** The dictionary returned by [recommend_scraping_frequency], without its
    "reasoning" entry, a sentence that prints the minimum lifetime. *)
Record Recommendation := mkRecommendation {
  rec_minutes : Z;
  rec_recommendation : string;
  rec_confidence : string;
  gcx_recommendation : string;
  cardcash_recommendation : string
}.

(** [DatabaseDealMonitor.recommend_scraping_frequency]. *)
Definition recommend_scraping_frequency (gcx_stats cardcash_stats : Stats)
    : Recommendation :=
  let gcx_rec := get_recommendation gcx_stats "GCX" in
  let cardcash_rec := get_recommendation cardcash_stats "CardCash" in
  let min_lifetime := py_min (lifetime_of gcx_stats) (lifetime_of cardcash_stats) in
  let overall_rec :=
    if below min_lifetime 60 then "Every 30 minutes"
    else if below min_lifetime 120 then "Every 1 hour"
    else "Every 2 hours" in
  mkRecommendation
    (_extract_minutes_from_recommendation overall_rec)
    overall_rec
    (match min_lifetime with Infinite => "low" | Finite _ => "high" end)
    gcx_rec cardcash_rec.

(** ** database_dashboard.py: the averages behind the summary *)

(** [sum(xs) / len(xs) if xs else 0]. *)
Definition mean_or_zero (xs : list Q) : Q :=
  match xs with
  | [] => 0%Q
  | _ => (Qsum xs / inject_Z (Z.of_nat (length xs)))%Q
  end.

(** The historical data of one source. *)
Record SourceHistory := mkSourceHistory {
  lifetimes : list Q;
  turnover_rates : list Q
}.

(** The recommendation [_generate_recommendation_summary] computes and
    whose 'minutes' it returns; writing the summary file is left out. *)
Definition summary_recommendation (gcx cardcash : SourceHistory) : Recommendation :=
  recommend_scraping_frequency
    (<[ "avg_lifetime_minutes" := mean_or_zero (lifetimes gcx) ]>
       {[ "turnover_rate" := mean_or_zero (turnover_rates gcx) ]})
    (<[ "avg_lifetime_minutes" := mean_or_zero (lifetimes cardcash) ]>
       {[ "turnover_rate" := mean_or_zero (turnover_rates cardcash) ]}).

(* ================================================================== *)
(** ** Inputs used in the examples of the further properties *)

(** A dictionary whose entry for the first source is the session id. *)
Definition broken_data : TurnoverData :=
  <[ "gcx_stats" := VOther ]> {[ "cardcash_stats" := VStats (stats_of 60 100) ]}.

(** A scraper that ran two adjustments: 60 to 15, then 15 to 25. *)
Definition two_adjustments : AdaptiveScraper :=
  adjust_frequency env0 (Some (data_of (stats_of 7 100) (stats_of 7 100)))
    (adjust_frequency env0 (Some (data_of (stats_of 60 100) (stats_of 60 100)))
       (after_scrapes 1 (after_scrapes 1 (after_scrapes 1 (after_scrapes 1
          (after_scrapes 1 (set_frequency_bounds 10 240 (init env0 60)))))))).

(** An environment whose log file cannot be opened. *)
Definition env_readonly : Env := mkEnv 2000 None false.

(** A scraper that has just been started; a pass at time [t] whose scrape
    succeeds and whose quick analysis would report a turnover of 60; seven
    such passes; and a pass whose scrape fails. *)
Definition fresh_poller : Poller :=
  mkPoller (start_adaptive_scraping (init env0 60)) [].

Definition failed_pass : Pass := mkPass env0 750 1 false.

Definition busy_pass (t : Time) : Pass :=
  mkPass (mkEnv t (Some (Some (data_of (stats_of 60 100) (stats_of 60 100))))
            true)
    t 3 true.

Definition seven_passes : list Pass :=
  map busy_pass [100; 200; 300; 400; 500; 600; 700].

(** No entry of a timeline is an empty list. *)
Definition no_empty_entry (timeline : Timeline) : Prop :=
  forall h, timeline !! h <> Some [].

(** A session of three snapshots: ["A"] stays, ["B"] leaves after the
    second check, ["C"] is seen once, ["D"] arrives at the second check;
    one joined row is null and one deal comes from an unknown source. *)
Definition sample_session : list Snapshot :=
  [ mkSnapshot 11 1 [Some (mkDeal "A" "raise"); Some (mkDeal "B" "raise");
                     Some (mkDeal "C" "cardcash"); None];
    mkSnapshot 12 2 [Some (mkDeal "A" "raise"); Some (mkDeal "B" "raise");
                     Some (mkDeal "D" "cardcash"); Some (mkDeal "E" "ebay")];
    mkSnapshot 13 3 [Some (mkDeal "D" "cardcash"); Some (mkDeal "A" "raise")] ].

(** The last element of a list bounds all its elements. *)
Definition last_is_max (s : list Z) : Prop :=
  forall y, In y s -> y <= List.last s 0.

(** The first source's timeline of a session in which every ["raise"] deal
    is listed in the last snapshot. *)
Definition session_all_stay : Timeline :=
  <[ "a" := [3; 1; 2] ]> {[ "b" := [2; 3] ]}.

(** A session of two snapshots that list the same two deals. *)
Definition steady_final : Snapshot :=
  mkSnapshot 22 2 [Some (mkDeal "A" "raise"); Some (mkDeal "C" "cardcash")].

Definition steady_earlier : list Snapshot :=
  [ mkSnapshot 21 1 [Some (mkDeal "C" "cardcash"); Some (mkDeal "A" "raise")] ].

(** A session in which each item is seen once. *)
Definition session_seen_once : Timeline :=
  <[ "a" := [1] ]> {[ "b" := [2] ]}.

(** A dashboard with history for the second source only. *)
Definition no_gcx_history : SourceHistory := mkSourceHistory [] [].

Definition cardcash_history : SourceHistory :=
  mkSourceHistory [200%Q; 300%Q] [(1 # 10)%Q; (2 # 10)%Q].

(** An item observed at least twice, every time before [num_snapshots]. *)
Definition gone (num_snapshots : Z) (item : string * list Z) : bool :=
  (2 <=? length (snd item))%nat
  && forallb (fun x => x <? num_snapshots) (snd item).

(* ================================================================== *)
(** ** The average lifetime in binary64 *)

Abbreviation float := PrimFloat.float.

(** [float(n)] for a Python [int]; exact below 2^53, the range of check
    numbers and of list lengths. *)
Fixpoint float_of_positive (p : positive) : float :=
  match p with
  | xH => PrimFloat.one
  | xO p' => PrimFloat.mul PrimFloat.two (float_of_positive p')
  | xI p' =>
      PrimFloat.add (PrimFloat.mul PrimFloat.two (float_of_positive p'))
        PrimFloat.one
  end.

Definition float_of_Z (z : Z) : float :=
  match z with
  | Z0 => PrimFloat.zero
  | Zpos p => float_of_positive p
  | Zneg p => PrimFloat.opp (float_of_positive p)
  end.

(** [sum(xs)] on floats, added from left to right (the compensated
    summation of later Python versions returns the same value on the input
    used below). *)
Definition float_sum (xs : list float) : float :=
  foldl PrimFloat.add PrimFloat.zero xs.

(** The loop of [_calculate_turnover_stats] for a [float] interval: the
    lifetime samples of lines 224-244. *)
Definition lifespans_float (num_snapshots : Z) (interval_minutes : float)
    (acc : list float) (item : string * list Z) : list float :=
  let appearances := sort (snd item) in
  if (length appearances <? 2)%nat then acc
  else
    let first_seen := hd 0 appearances in
    let last_seen := List.last appearances 0 in
    let lifespan_checks := last_seen - first_seen + 1 in
    acc ++ [PrimFloat.mul (float_of_Z lifespan_checks) interval_minutes].

(** Lines 246-250 for a [float] interval. *)
Definition avg_lifetime_minutes_float (deal_timeline : Timeline)
    (num_snapshots : Z) (interval_minutes : float) : float :=
  let deal_lifespans :=
    foldl (lifespans_float num_snapshots interval_minutes) []
      (map_to_list deal_timeline) in
  match deal_lifespans with
  | [] => PrimFloat.zero
  | _ => PrimFloat.div (float_sum deal_lifespans)
           (float_of_Z (Z.of_nat (length deal_lifespans)))
  end.

(** The literal [0.7], and a two-snapshot session of three items seen in
    both. *)
Definition seven_tenths : float :=
  PrimFloat.div (float_of_Z 7) (float_of_Z 10).

Definition session_three_twice : Timeline :=
  <[ "a" := [1; 2] ]> (<[ "b" := [1; 2] ]> {[ "c" := [1; 2] ]}).

(* ================================================================== *)
(** ** adaptive_scraper.py with the history as loaded from its file *)

(** The "stats" dictionary of a loaded history: [None] where a key is
    missing or does not hold a number. *)
Record LoadedStats := mkLoadedStats {
  loaded_total_adjustments : option Z;
  loaded_increases : option Z;
  loaded_decreases : option Z;
  loaded_last_updated : option Time
}.

(** What [json.load] returned: [None] where "adjustments" is missing or not
    a list, and where "stats" is missing or not a dictionary. *)
Record LoadedHistory := mkLoadedHistory {
  loaded_adjustments : option (list Adjustment);
  loaded_stats : option LoadedStats
}.

(** The file [frequency_adjustments.json] when the object is created. *)
Inductive HistoryFile :=
| NoFile
| Unreadable
| Parsed (content : LoadedHistory).

(** [AdaptiveScraper._load_adjustment_history]: a file that parses is kept
    as it is; a missing file and a failure to read give the default. *)
Definition _load_adjustment_history (env : Env) (file : HistoryFile)
    : LoadedHistory :=
  let fresh :=
    mkLoadedHistory (Some [])
      (Some (mkLoadedStats (Some 0) (Some 0) (Some 0) (Some (now env)))) in
  match file with
  | NoFile => fresh
  | Unreadable => fresh
  | Parsed content => content
  end.

(** The file as [DatabaseTurnoverDashboard._load_frequency_adjustments]
    writes it under the same name: the keys "source_adjustments" and
    "last_updated", neither "adjustments" nor "stats". *)
Definition dashboard_file : HistoryFile :=
  Parsed (mkLoadedHistory None None).

(** The object with the history it loaded. *)
Record LoadedScraper := mkLoadedScraper {
  l_current_frequency : Z;
  l_min_frequency : Z;
  l_max_frequency : Z;
  l_adjustment_threshold : Z;
  l_scrape_count : Z;
  l_running : bool;
  l_last_adjustment_time : option Time;
  l_adjustment_history : LoadedHistory
}.

(** [AdaptiveScraper.__init__]. *)
Definition init_loaded (env : Env) (file : HistoryFile)
    (initial_frequency_minutes : Z) : LoadedScraper :=
  mkLoadedScraper initial_frequency_minutes 10 240 5 0 false None
    (_load_adjustment_history env file).

(** [self.scrape_count += 1], [n] times. *)
Definition l_after_scrapes (n : Z) (self : LoadedScraper) : LoadedScraper :=
  mkLoadedScraper (l_current_frequency self) (l_min_frequency self)
    (l_max_frequency self) (l_adjustment_threshold self)
    (l_scrape_count self + n) (l_running self)
    (l_last_adjustment_time self) (l_adjustment_history self).

Definition l_with_current_frequency (f : Z) (self : LoadedScraper) :=
  mkLoadedScraper f (l_min_frequency self) (l_max_frequency self)
    (l_adjustment_threshold self) (l_scrape_count self) (l_running self)
    (l_last_adjustment_time self) (l_adjustment_history self).

Definition l_with_last_adjustment_time (t : option Time) (self : LoadedScraper) :=
  mkLoadedScraper (l_current_frequency self) (l_min_frequency self)
    (l_max_frequency self) (l_adjustment_threshold self) (l_scrape_count self)
    (l_running self) t (l_adjustment_history self).

Definition l_with_adjustment_history (h : LoadedHistory) (self : LoadedScraper) :=
  mkLoadedScraper (l_current_frequency self) (l_min_frequency self)
    (l_max_frequency self) (l_adjustment_threshold self) (l_scrape_count self)
    (l_running self) (l_last_adjustment_time self) h.

(** The loaded object read through the typed record, with a history [h]. *)
Definition typed (self : LoadedScraper) (h : AdjustmentHistory) : AdaptiveScraper :=
  mkScraper (l_current_frequency self) (l_min_frequency self)
    (l_max_frequency self) (l_adjustment_threshold self) (l_scrape_count self)
    (l_running self) (l_last_adjustment_time self) h.

(** The interval and the bounds, for the rule table and the clamp, which
    read nothing else. *)
Definition settings_of (self : LoadedScraper) : AdaptiveScraper :=
  typed self (mkHistory [] (mkHistoryStats 0 0 0 0)).

(** A typed history as a loaded one, and a typed object as a loaded one. *)
Definition loaded_of (h : AdjustmentHistory) : LoadedHistory :=
  mkLoadedHistory (Some (adjustments h))
    (Some (mkLoadedStats (Some (total_adjustments (stats h)))
             (Some (increases (stats h))) (Some (decreases (stats h)))
             (Some (last_updated (stats h))))).

Definition embed (self : AdaptiveScraper) : LoadedScraper :=
  mkLoadedScraper (current_frequency self) (min_frequency self)
    (max_frequency self) (adjustment_threshold self) (scrape_count self)
    (running self) (last_adjustment_time self)
    (loaded_of (adjustment_history self)).

(** The loaded histories that have the shape this class writes: every key
    present. *)
Definition shaped (h : LoadedHistory) : option AdjustmentHistory :=
  log ← loaded_adjustments h;
  s ← loaded_stats h;
  total ← loaded_total_adjustments s;
  up ← loaded_increases s;
  down ← loaded_decreases s;
  stamp ← loaded_last_updated s;
  Some (mkHistory log (mkHistoryStats total up down stamp)).

(** The dictionary [_log_adjustment] builds at lines 180-195. *)
Definition adjustment_record (env : Env) (old_freq new_freq : Z)
    (reason confidence : string) (metrics : TurnoverData) (count : Z)
    : Adjustment :=
  mkAdjustment (now env) old_freq new_freq reason confidence
    (mkMetrics
       (source_metric "gcx_stats" "turnover_rate" 0 metrics)
       (source_metric "cardcash_stats" "turnover_rate" 0 metrics)
       ((source_metric "gcx_stats" "avg_lifetime_minutes" 0 metrics
         + source_metric "cardcash_stats" "avg_lifetime_minutes" 0 metrics)
        / 2)%Q
       count).

(** [_save_adjustment_history] on a loaded history: a missing "stats"
    raises inside its own [try] and is logged there. *)
Definition _save_adjustment_history_loaded (env : Env) (self : LoadedScraper)
    : LoadedScraper :=
  if log_file_writable env then
    let h := l_adjustment_history self in
    match loaded_stats h with
    | Some s =>
        l_with_adjustment_history
          (mkLoadedHistory (loaded_adjustments h)
             (Some (mkLoadedStats (loaded_total_adjustments s)
                      (loaded_increases s) (loaded_decreases s)
                      (Some (now env)))))
          self
    | None => self
    end
  else self.

(** [_log_adjustment] on a loaded history.  The second component tells
    whether the method returned; when a key is missing it raises at that
    line, with the writes of the lines before it already made. *)
Definition _log_adjustment_loaded (env : Env) (old_freq new_freq : Z)
    (reason confidence : string) (metrics : TurnoverData)
    (self : LoadedScraper) : LoadedScraper * bool :=
  let adjustment :=
    adjustment_record env old_freq new_freq reason confidence metrics
      (l_scrape_count self) in
  let h := l_adjustment_history self in
  match loaded_adjustments h with
  | None => (self, false)                                    (* line 198 *)
  | Some log =>
      let log' := Some (log ++ [adjustment]) in
      let appended :=
        l_with_adjustment_history (mkLoadedHistory log' (loaded_stats h)) self in
      match loaded_stats h with
      | None => (appended, false)                            (* line 199 *)
      | Some s =>
          match loaded_total_adjustments s with
          | None => (appended, false)                        (* line 199 *)
          | Some total =>
              let s1 :=
                mkLoadedStats (Some (total + 1)) (loaded_increases s)
                  (loaded_decreases s) (loaded_last_updated s) in
              let counted :=
                l_with_adjustment_history (mkLoadedHistory log' (Some s1)) self in
              if new_freq <? old_freq then
                match loaded_increases s with
                | None => (counted, false)                   (* line 202 *)
                | Some up =>
                    (_save_adjustment_history_loaded env
                       (l_with_adjustment_history
                          (mkLoadedHistory log'
                             (Some (mkLoadedStats (Some (total + 1))
                                      (Some (up + 1)) (loaded_decreases s)
                                      (loaded_last_updated s))))
                          self),
                     true)
                end
              else
                match loaded_decreases s with
                | None => (counted, false)                   (* line 204 *)
                | Some down =>
                    (_save_adjustment_history_loaded env
                       (l_with_adjustment_history
                          (mkLoadedHistory log'
                             (Some (mkLoadedStats (Some (total + 1))
                                      (loaded_increases s) (Some (down + 1))
                                      (loaded_last_updated s))))
                          self),
                     true)
                end
          end
      end
  end.

(** [AdaptiveScraper.adjust_frequency] on the loaded object.  An exception
    from [_log_adjustment] reaches the handler of line 175 after the
    interval has been written, and line 173 is skipped. *)
Definition adjust_frequency_loaded (env : Env)
    (turnover_data : option TurnoverData) (self : LoadedScraper)
    : LoadedScraper :=
  if l_scrape_count self <? l_adjustment_threshold self then self
  else
    match effective_data env turnover_data with
    | None => self
    | Some turnover_data =>
        match extract_metrics turnover_data with
        | None => self
        | Some (avg_turnover, avg_lifetime) =>
            let old_frequency := l_current_frequency self in
            let d := apply_rules (settings_of self) avg_turnover avg_lifetime in
            let new_frequency := clamp (settings_of self) (decided_frequency d) in
            let self := l_with_current_frequency new_frequency self in
            if negb (old_frequency =? new_frequency) then
              let logged :=
                _log_adjustment_loaded env old_frequency new_frequency
                  (decided_reason d) (decided_confidence d)
                  (default ∅ turnover_data) self in
              if snd logged
              then l_with_last_adjustment_time (Some (now env)) (fst logged)
              else fst logged
            else l_with_last_adjustment_time (Some (now env)) self
        end
    end.

(** An object created over the dashboard's file, after five scrapes, and
    one created over a history of this class, with the same fields. *)
Definition over_dashboard_file : LoadedScraper :=
  l_after_scrapes 5 (init_loaded env0 dashboard_file 60).

Definition over_own_file : LoadedScraper :=
  l_after_scrapes 5 (init_loaded env0 NoFile 60).

(* ================================================================== *)
(** ** The two threads on one object *)

(** One activity on the shared object: a pass of the scraping thread, or
    the call [self.adjust_frequency(turnover_data)] of the monitoring
    thread (line 266), which may come at any point between passes. *)
Inductive Activity :=
| ScrapingPass (x : Pass)
| MonitoringAdjustment (env : Env) (turnover_data : option TurnoverData).

Definition perform (p : Poller) (a : Activity) : Poller :=
  match a with
  | ScrapingPass x => scraping_pass x p
  | MonitoringAdjustment env turnover_data =>
      if running (scraper p)
      then mkPoller (adjust_frequency env turnover_data (scraper p))
             (scrape_history p)
      else p
  end.

(** What a pass does when it makes no adjustment: the counter and the
    history entry. *)
Definition count_only (x : Pass) (p : Poller) : Poller :=
  if negb (running (scraper p)) then p
  else if negb (process_deals_ok x) then p
  else
    mkPoller (after_scrapes 1 (scraper p))
      (scrape_history p
       ++ [mkScrapeEvent (start_time x) (pass_duration x)
             (current_frequency (scraper p))]).

Definition perform_counting (p : Poller) (a : Activity) : Poller :=
  match a with
  | ScrapingPass x => count_only x p
  | MonitoringAdjustment _ _ => perform p a
  end.

(** The passes among the activities. *)
Definition passes_of (activities : list Activity) : list Pass :=
  flat_map (fun a => match a with
                     | ScrapingPass x => [x]
                     | MonitoringAdjustment _ _ => []
                     end) activities.

(** Seven busy passes with a monitoring adjustment after the fifth. *)
Definition interleaved_run : list Activity :=
  map ScrapingPass (map busy_pass [100; 200; 300; 400; 500])
  ++ [MonitoringAdjustment env0
        (Some (data_of (stats_of 7 100) (stats_of 7 100)))]
  ++ map ScrapingPass (map busy_pass [600; 700]).

(* ================================================================== *)
(** * Properties *)

(** ** Comparisons on metrics *)

Lemma Qltb_true (x y : Q) : Qltb x y = true <-> (x < y)%Q.
Proof.
  unfold Qltb. rewrite Qlt_alt.
  destruct (x ?= y)%Q; split; congruence.
Qed.

Lemma Qltb_false (x y : Q) : Qltb x y = false <-> (y <= x)%Q.
Proof.
  split; intros H.
  - apply Qnot_lt_le. intros Hlt. apply Qltb_true in Hlt. congruence.
  - destruct (Qltb x y) eqn:E; [|reflexivity].
    apply Qltb_true in E. exfalso. exact (Qlt_not_le _ _ E H).
Qed.

Lemma Qgtb_true (x y : Q) : Qgtb x y = true <-> (y < x)%Q.
Proof. apply Qltb_true. Qed.

Lemma Qgtb_false (x y : Q) : Qgtb x y = false <-> (x <= y)%Q.
Proof. apply Qltb_false. Qed.

(** ** Sorting check numbers *)

Lemma sort_insert_length (x : Z) (l : list Z) :
  length (sort_insert x l) = S (length l).
Proof.
  induction l as [|y l IH]; simpl; [reflexivity|].
  destruct (x <=? y); simpl; congruence.
Qed.

Lemma sort_length (l : list Z) : length (sort l) = length l.
Proof.
  induction l as [|x l IH]; simpl; [reflexivity|].
  rewrite sort_insert_length. congruence.
Qed.

Lemma strictly_increasing_tail (x : Z) (l : list Z) :
  strictly_increasing (x :: l) = true -> strictly_increasing l = true.
Proof.
  destruct l as [|y l]; [reflexivity|].
  cbn [strictly_increasing]. intros H.
  apply andb_true_iff in H. tauto.
Qed.

Lemma sort_strictly_increasing (l : list Z) :
  strictly_increasing l = true -> sort l = l.
Proof.
  induction l as [|x l IH]; [reflexivity|].
  intros H. simpl. rewrite IH by (eapply strictly_increasing_tail; eauto).
  destruct l as [|y l]; [reflexivity|].
  cbn [strictly_increasing] in H. apply andb_true_iff in H as [Hxy _].
  simpl. apply Z.ltb_lt in Hxy.
  destruct (Z.leb_spec x y); [reflexivity|lia].
Qed.

Lemma strictly_increasing_last (x : Z) (l : list Z) :
  strictly_increasing (x :: l) = true -> x <= List.last (x :: l) 0.
Proof.
  revert x. induction l as [|y l IH]; intros x H.
  - simpl. lia.
  - cbn [strictly_increasing] in H. apply andb_true_iff in H as [Hxy Hl].
    apply Z.ltb_lt in Hxy. specialize (IH y Hl).
    change (List.last (x :: y :: l) 0) with (List.last (y :: l) 0). lia.
Qed.

Lemma strictly_increasing_span (l : list Z) :
  strictly_increasing l = true -> (2 <= length l)%nat ->
  2 <= List.last l 0 - hd 0 l + 1.
Proof.
  destruct l as [|x [|y l]]; simpl length; try lia.
  intros H _. cbn [strictly_increasing] in H.
  apply andb_true_iff in H as [Hxy Hl]. apply Z.ltb_lt in Hxy.
  pose proof (strictly_increasing_last y l Hl) as Hlast.
  change (List.last (x :: y :: l) 0) with (List.last (y :: l) 0).
  simpl hd. lia.
Qed.

(** ** The loop of [_calculate_turnover_stats] *)

Section Loop.
Variables (num_snapshots : Z) (interval_minutes : Q).

Let body := loop_body num_snapshots interval_minutes.

Lemma loop_body_disappeared (acc : LoopState) (item : string * list Z) :
  disappeared_deals (body acc item) =
  disappeared_deals acc + (if counted num_snapshots item then 1 else 0).
Proof.
  unfold body, loop_body, counted, seen_twice, last_before.
  rewrite sort_length.
  destruct (Nat.ltb_spec (length (snd item)) 2) as [Hlt|Hge].
  - destruct (Nat.leb_spec 2 (length (snd item))); [lia|]. simpl. lia.
  - destruct (Nat.leb_spec 2 (length (snd item))); [|lia]. simpl.
    destruct (_ <? num_snapshots); lia.
Qed.

Lemma foldl_disappeared (items : list (string * list Z)) (acc : LoopState) :
  disappeared_deals (foldl body acc items) =
  disappeared_deals acc + Z.of_nat (length (List.filter (counted num_snapshots) items)).
Proof.
  revert acc. induction items as [|item items IH]; intros acc; simpl.
  - lia.
  - rewrite IH, loop_body_disappeared.
    destruct (counted num_snapshots item); simpl length; lia.
Qed.

Lemma run_loop_disappeared (items : list (string * list Z)) :
  disappeared_deals (run_loop num_snapshots interval_minutes items) =
  Z.of_nat (length (List.filter (counted num_snapshots) items)).
Proof. unfold run_loop. fold body. rewrite foldl_disappeared. simpl. lia. Qed.

Lemma run_loop_disappeared_bounds (items : list (string * list Z)) :
  0 <= disappeared_deals (run_loop num_snapshots interval_minutes items)
    <= Z.of_nat (length items).
Proof.
  rewrite run_loop_disappeared.
  pose proof (List.filter_length_le (counted num_snapshots) items). lia.
Qed.

(** Every lifetime sample comes from a list of two or more observations. *)
Lemma foldl_lifespans (P : Q -> Prop) (items : list (string * list Z))
      (acc : LoopState) :
  Forall P (deal_lifespans acc) ->
  Forall (fun item =>
            (2 <= length (snd item))%nat ->
            P (inject_Z (List.last (sort (snd item)) 0
                         - hd 0 (sort (snd item)) + 1)%Z * interval_minutes)%Q)
         items ->
  Forall P (deal_lifespans (foldl body acc items)).
Proof.
  revert acc. induction items as [|item items IH]; intros acc Hacc Hitems.
  - exact Hacc.
  - simpl. apply Forall_cons_1 in Hitems as [Hitem Hitems].
    apply IH; [|exact Hitems].
    unfold body, loop_body. rewrite sort_length.
    destruct (Nat.ltb_spec (length (snd item)) 2) as [Hlt|Hge]; [exact Hacc|].
    simpl. apply Forall_app. split; [exact Hacc|].
    constructor; [|constructor]. apply Hitem. exact Hge.
Qed.
End Loop.

(** ** Sums and means of lifetime samples *)

Lemma Qsum_lower (c : Q) (xs : list Q) :
  Forall (fun x => (c <= x)%Q) xs ->
  (inject_Z (Z.of_nat (length xs)) * c <= Qsum xs)%Q.
Proof.
  induction 1 as [|x xs Hx _ IH].
  - simpl. apply Qle_lteq. right. ring.
  - cbn [length Qsum foldr]. rewrite Nat2Z.inj_succ.
    unfold Z.succ. rewrite inject_Z_plus.
    assert (E : ((inject_Z (Z.of_nat (length xs)) + inject_Z 1) * c
                 == c + inject_Z (Z.of_nat (length xs)) * c)%Q) by ring.
    rewrite E. apply Qplus_le_compat; assumption.
Qed.

Lemma Qmean_lower (c : Q) (xs : list Q) :
  xs <> [] ->
  Forall (fun x => (c <= x)%Q) xs ->
  (c <= Qsum xs / inject_Z (Z.of_nat (length xs)))%Q.
Proof.
  intros Hne Hall.
  assert (Hpos : (0 < inject_Z (Z.of_nat (length xs)))%Q).
  { change 0%Q with (inject_Z 0). rewrite <- Zlt_Qlt.
    destruct xs; [congruence|simpl length; lia]. }
  apply Qle_shift_div_l; [exact Hpos|].
  rewrite Qmult_comm. apply Qsum_lower. exact Hall.
Qed.

Lemma Qratio_unit (d t : Z) :
  0 <= d <= t -> 0 < t ->
  (0 <= inject_Z d / inject_Z t <= 1)%Q.
Proof.
  intros [Hd Hdt] Ht.
  assert (Hpos : (0 < inject_Z t)%Q).
  { change 0%Q with (inject_Z 0). rewrite <- Zlt_Qlt. exact Ht. }
  split.
  - apply Qle_shift_div_l; [exact Hpos|].
    assert (E : (0 * inject_Z t == inject_Z 0)%Q) by ring.
    rewrite E, <- Zle_Qle. exact Hd.
  - apply Qle_shift_div_r; [exact Hpos|].
    assert (E : (1 * inject_Z t == inject_Z t)%Q) by ring.
    rewrite E, <- Zle_Qle. exact Hdt.
Qed.

(** ** The statistics dictionary *)

Section Stats.
Variables (deal_timeline : Timeline) (num_snapshots : Z)
          (interval_minutes : Q).

Let result := _calculate_turnover_stats deal_timeline num_snapshots
                interval_minutes.
Let final := run_loop num_snapshots interval_minutes
               (map_to_list deal_timeline).

Lemma stats_no_items :
  size deal_timeline = 0%nat -> result = {[ "total_deals_seen" := 0%Q ]}.
Proof.
  intros H. unfold result, _calculate_turnover_stats. rewrite H. reflexivity.
Qed.

Lemma stats_total :
  result !! "total_deals_seen"
  = Some (inject_Z (Z.of_nat (size deal_timeline))).
Proof.
  unfold result, _calculate_turnover_stats.
  destruct (Z.eqb_spec (Z.of_nat (size deal_timeline)) 0) as [E|E].
  - rewrite E. apply lookup_singleton_eq.
  - apply lookup_insert_eq.
Qed.

Lemma stats_disappeared :
  size deal_timeline <> 0%nat ->
  result !! "disappeared_deals" = Some (inject_Z (disappeared_deals final)).
Proof.
  intros H. unfold result, _calculate_turnover_stats.
  destruct (Z.eqb_spec (Z.of_nat (size deal_timeline)) 0) as [E|E]; [lia|].
  rewrite lookup_insert_ne by discriminate. apply lookup_insert_eq.
Qed.

Lemma stats_turnover_rate :
  size deal_timeline <> 0%nat ->
  result !! "turnover_rate"
  = Some (inject_Z (disappeared_deals final)
          / inject_Z (Z.of_nat (size deal_timeline)))%Q.
Proof.
  intros H. unfold result, _calculate_turnover_stats.
  destruct (Z.eqb_spec (Z.of_nat (size deal_timeline)) 0) as [E|E]; [lia|].
  rewrite !lookup_insert_ne by discriminate. rewrite lookup_insert_eq.
  destruct (Z.gtb_spec (Z.of_nat (size deal_timeline)) 0); [reflexivity|lia].
Qed.

Lemma stats_avg_lifetime :
  size deal_timeline <> 0%nat ->
  result !! "avg_lifetime_minutes"
  = Some (match deal_lifespans final with
          | [] => 0%Q
          | _ => (Qsum (deal_lifespans final)
                  / inject_Z (Z.of_nat (length (deal_lifespans final))))%Q
          end).
Proof.
  intros H. unfold result, _calculate_turnover_stats.
  destruct (Z.eqb_spec (Z.of_nat (size deal_timeline)) 0) as [E|E]; [lia|].
  rewrite !lookup_insert_ne by discriminate. apply lookup_singleton_eq.
Qed.

(** The disappeared counter, in terms of the items of the session. *)
Lemma stats_disappeared_counted :
  size deal_timeline <> 0%nat ->
  result !! "disappeared_deals"
  = Some (inject_Z (Z.of_nat (length
            (List.filter (counted num_snapshots)
                         (map_to_list deal_timeline))))).
Proof.
  intros H. rewrite stats_disappeared by exact H.
  unfold final. rewrite run_loop_disappeared. reflexivity.
Qed.

(** Whenever the dictionary has a turnover rate, it is a fraction. *)
Lemma turnover_rate_unit (r : Q) :
  result !! "turnover_rate" = Some r -> (0 <= r <= 1)%Q.
Proof.
  destruct (decide (size deal_timeline = 0%nat)) as [E|E].
  - rewrite (stats_no_items E). rewrite lookup_singleton_ne by discriminate.
    discriminate.
  - rewrite (stats_turnover_rate E). intros [= <-].
    apply Qratio_unit; [|lia].
    pose proof (run_loop_disappeared_bounds num_snapshots interval_minutes
                  (map_to_list deal_timeline)) as Hb.
    rewrite length_map_to_list in Hb. exact Hb.
Qed.

Lemma turnover_rate_read_unit : (0 <= get "turnover_rate" 0 result <= 1)%Q.
Proof.
  unfold get. destruct (result !! "turnover_rate") as [r|] eqn:E; simpl.
  - apply turnover_rate_unit. exact E.
  - split; discriminate.
Qed.
End Stats.

(** ** Claims about [_calculate_turnover_stats] *)

(** C3 (the code departs from the claim).  In [session_a_vanishes] one item,
    ["a"], was last observed before the final sequence number 3, and both
    items are counted in [total_deals_seen]; yet [disappeared_deals] is 0,
    because the [continue] for items with fewer than two observations comes
    before the "wasn't seen in the last snapshot" test. *)
Theorem C3_single_observation_never_disappears :
  let result := _calculate_turnover_stats session_a_vanishes 3 10 in
  length (List.filter (last_before 3) (map_to_list session_a_vanishes)) = 1%nat
  /\ result !! "total_deals_seen" = Some 2%Q
  /\ result !! "disappeared_deals" = Some 0%Q
  /\ get "turnover_rate" 0 result = (0 / 2)%Q.
Proof. vm_compute. repeat split; reflexivity. Qed.

(** C4.  The turnover rate of the returned statistics lies in [0, 1]: both
    the entry of the dictionary whenever there is one, and the value its
    readers obtain with [stats.get('turnover_rate', 0)]; the latter is 0
    when no item was seen. *)
Theorem C4_turnover_rate_in_unit_interval
    (deal_timeline : Timeline) (num_snapshots : Z) (interval_minutes : Q) :
  let result :=
    _calculate_turnover_stats deal_timeline num_snapshots interval_minutes in
  (0 <= get "turnover_rate" 0 result <= 1)%Q
  /\ (forall r, result !! "turnover_rate" = Some r -> (0 <= r <= 1)%Q)
  /\ ((get "total_deals_seen" 0 result == 0)%Q ->
      get "turnover_rate" 0 result = 0%Q).
Proof.
  cbv zeta. split; [apply turnover_rate_read_unit|].
  split; [intros r; apply turnover_rate_unit|].
  unfold get at 1. rewrite stats_total. simpl. intros Hz.
  assert (E : size deal_timeline = 0%nat).
  { unfold Qeq in Hz. simpl in Hz. lia. }
  rewrite (stats_no_items _ num_snapshots interval_minutes E). reflexivity.
Qed.

Lemma C4_witness :
  get "turnover_rate" 0 (_calculate_turnover_stats ∅ 3 10) = 0%Q
  /\ (0 <= 1 # 2 <= 1)%Q.
Proof.
  split.
  - apply (C4_turnover_rate_in_unit_interval ∅ 3 10). vm_compute. reflexivity.
  - apply (C4_turnover_rate_in_unit_interval
             (<[ "a" := [1; 2] ]> {[ "b" := [1; 2; 3] ]}) 3 10).
    vm_compute. reflexivity.
Defined.

(** In exact arithmetic: when every item's observations are strictly
    increasing and the check interval is not negative, a nonzero mean of the
    lifetime samples is at least twice the check interval. *)
Lemma exact_mean_spans_two_checks
    (deal_timeline : Timeline) (num_snapshots : Z) (interval_minutes : Q) :
  (0 <= interval_minutes)%Q ->
  map_Forall (fun _ appearances => strictly_increasing appearances = true)
             deal_timeline ->
  let avg :=
    get "avg_lifetime_minutes" 0
      (_calculate_turnover_stats deal_timeline num_snapshots interval_minutes) in
  ~ (avg == 0)%Q -> (2 * interval_minutes <= avg)%Q.
Proof.
  intros Hint Hinc avg Hnz. subst avg. revert Hnz. unfold get.
  destruct (decide (size deal_timeline = 0%nat)) as [E|E].
  { rewrite (stats_no_items _ num_snapshots interval_minutes E).
    rewrite lookup_singleton_ne by discriminate. simpl. intros []. reflexivity. }
  rewrite stats_avg_lifetime by exact E. simpl.
  assert (Hall : Forall (fun x => (2 * interval_minutes <= x)%Q)
            (deal_lifespans (run_loop num_snapshots interval_minutes
                               (map_to_list deal_timeline)))).
  { unfold run_loop. apply foldl_lifespans; [constructor|].
    apply map_Forall_to_list in Hinc.
    eapply Forall_impl; [exact Hinc|].
    intros [k l] Hl Hlen. simpl in *.
    rewrite (sort_strictly_increasing l Hl).
    apply Qmult_le_compat_r; [|exact Hint].
    change 2%Q with (inject_Z 2). rewrite <- Zle_Qle.
    apply strictly_increasing_span; assumption. }
  destruct (deal_lifespans _) as [|x xs] eqn:El.
  - intros []. reflexivity.
  - intros _. apply Qmean_lower; [discriminate|exact Hall].
Qed.

(** ** The frequency controller *)

Section Eligible.
Variables (env : Env) (turnover_data : option TurnoverData)
          (self : AdaptiveScraper).
Variables (data : option TurnoverData) (avg_turnover avg_lifetime : Q).
Hypothesis enough_scrapes : adjustment_threshold self <= scrape_count self.
Hypothesis data_available : effective_data env turnover_data = Some data.
Hypothesis data_readable :
  extract_metrics data = Some (avg_turnover, avg_lifetime).

Lemma adjust_frequency_eligible :
  adjust_frequency env turnover_data self
  = adjusted env data avg_turnover avg_lifetime self.
Proof.
  unfold adjust_frequency, adjusted.
  destruct (Z.ltb_spec (scrape_count self) (adjustment_threshold self));
    [lia|].
  rewrite data_available, data_readable. reflexivity.
Qed.

Lemma fired_rule_eligible :
  fired_rule env turnover_data self
  = Some (decided_reason (apply_rules self avg_turnover avg_lifetime)).
Proof.
  unfold fired_rule.
  destruct (Z.ltb_spec (scrape_count self) (adjustment_threshold self));
    [lia|].
  rewrite data_available. simpl. rewrite data_readable. reflexivity.
Qed.

Lemma save_current (s : AdaptiveScraper) :
  current_frequency (_save_adjustment_history env s) = current_frequency s.
Proof. unfold _save_adjustment_history. destruct (log_file_writable env); reflexivity. Qed.

Lemma adjust_frequency_current :
  current_frequency (adjust_frequency env turnover_data self)
  = clamp self (decided_frequency (apply_rules self avg_turnover avg_lifetime)).
Proof.
  rewrite adjust_frequency_eligible. unfold adjusted.
  destruct (negb _); simpl; [|reflexivity].
  unfold _log_adjustment. rewrite save_current. reflexivity.
Qed.

Lemma adjust_frequency_last_adjustment_time :
  last_adjustment_time (adjust_frequency env turnover_data self)
  = Some (now env).
Proof. rewrite adjust_frequency_eligible. reflexivity. Qed.
End Eligible.

(** The rule table, one lemma per rule the claims are about. *)
Lemma apply_rules_very_high (self : AdaptiveScraper) (t l : Q) :
  (50 < t)%Q ->
  apply_rules self t l
  = mkDecision (Z.max (min_frequency self) (Z.min 15 (current_frequency self - 15)))
      "high" "very high turnover rate".
Proof.
  intros H. unfold apply_rules.
  rewrite (proj2 (Qgtb_true t 50) H). reflexivity.
Qed.

Lemma apply_rules_very_low (self : AdaptiveScraper) (t l : Q) :
  (t < 5)%Q -> (180 < l)%Q ->
  apply_rules self t l
  = mkDecision (Z.min (max_frequency self) (Z.max 120 (current_frequency self + 20)))
      "high" "very low turnover and long deal lifetime".
Proof.
  intros Ht Hl. unfold apply_rules.
  assert (H50 : Qgtb t 50 = false).
  { apply Qgtb_false. apply Qlt_le_weak. eapply Qlt_trans; [exact Ht|reflexivity]. }
  assert (H30 : Qgtb t 30 = false).
  { apply Qgtb_false. apply Qlt_le_weak. eapply Qlt_trans; [exact Ht|reflexivity]. }
  rewrite H50, H30, (proj2 (Qltb_true t 5) Ht), (proj2 (Qgtb_true l 180) Hl).
  reflexivity.
Qed.

Lemma apply_rules_low (self : AdaptiveScraper) (t l : Q) :
  (t < 5)%Q -> (l <= 180)%Q ->
  apply_rules self t l
  = mkDecision (Z.min (max_frequency self) (current_frequency self + 10))
      "medium" "low turnover rate".
Proof.
  intros Ht Hl. unfold apply_rules.
  assert (H50 : Qgtb t 50 = false).
  { apply Qgtb_false. apply Qlt_le_weak. eapply Qlt_trans; [exact Ht|reflexivity]. }
  assert (H30 : Qgtb t 30 = false).
  { apply Qgtb_false. apply Qlt_le_weak. eapply Qlt_trans; [exact Ht|reflexivity]. }
  assert (H10 : Qltb t 10 = true).
  { apply Qltb_true. eapply Qlt_trans; [exact Ht|reflexivity]. }
  rewrite H50, H30, (proj2 (Qltb_true t 5) Ht), (proj2 (Qgtb_false l 180) Hl), H10.
  reflexivity.
Qed.

(** ** [_log_adjustment] *)

Section LogAdjustment.
Variables (env : Env) (old_freq new_freq : Z) (why conf : string)
          (turnover_data : TurnoverData) (self : AdaptiveScraper).

Let logged := _log_adjustment env old_freq new_freq why conf turnover_data self.
Let before := stats (adjustment_history self).
Let after := stats (adjustment_history logged).

Lemma log_adjustment_appends :
  exists r,
    adjustments (adjustment_history logged)
    = adjustments (adjustment_history self) ++ [r]
    /\ old_frequency r = old_freq /\ new_frequency r = new_freq
    /\ reason r = why /\ confidence r = conf.
Proof.
  unfold logged, _log_adjustment, _save_adjustment_history.
  destruct (log_file_writable env); simpl; eexists; repeat split; reflexivity.
Qed.

Lemma log_adjustment_total :
  total_adjustments after = total_adjustments before + 1.
Proof.
  unfold after, before, logged, _log_adjustment, _save_adjustment_history.
  destruct (log_file_writable env), (new_freq <? old_freq); reflexivity.
Qed.

Lemma log_adjustment_shorter_interval :
  new_freq < old_freq ->
  increases after = increases before + 1
  /\ decreases after = decreases before.
Proof.
  intros H. unfold after, before, logged, _log_adjustment,
    _save_adjustment_history.
  destruct (Z.ltb_spec new_freq old_freq); [|lia].
  destruct (log_file_writable env); split; reflexivity.
Qed.

Lemma log_adjustment_longer_interval :
  old_freq <= new_freq ->
  increases after = increases before
  /\ decreases after = decreases before + 1.
Proof.
  intros H. unfold after, before, logged, _log_adjustment,
    _save_adjustment_history.
  destruct (Z.ltb_spec new_freq old_freq); [lia|].
  destruct (log_file_writable env); split; reflexivity.
Qed.
End LogAdjustment.

(** C8 (as amended).  Every recorded adjustment adds one to
    [total_adjustments] and to exactly one direction counter, chosen by the
    test [new_freq < old_freq]: a shorter new interval (more frequent
    scraping) increments 'increases', and any other recorded adjustment,
    hence every longer new interval, increments 'decreases'. *)
Theorem C8_counters_follow_scraping_frequency
    (env : Env) (old_freq new_freq : Z) (why conf : string)
    (turnover_data : TurnoverData) (self : AdaptiveScraper) :
  let before := stats (adjustment_history self) in
  let after :=
    stats (adjustment_history
             (_log_adjustment env old_freq new_freq why conf turnover_data self)) in
  total_adjustments after = total_adjustments before + 1
  /\ (new_freq < old_freq ->
      increases after = increases before + 1
      /\ decreases after = decreases before)
  /\ (old_freq < new_freq ->
      decreases after = decreases before + 1
      /\ increases after = increases before).
Proof.
  cbv zeta. split; [apply log_adjustment_total|]. split; intros H.
  - apply log_adjustment_shorter_interval. exact H.
  - destruct (log_adjustment_longer_interval env old_freq new_freq why conf
                turnover_data self) as [Hi Hd]; [lia|].
    split; assumption.
Qed.

Lemma C8_witness :
  let after :=
    stats (adjustment_history
             (_log_adjustment env0 60 45 "high turnover rate" "high" ∅
                (scraper0 60 10 240))) in
  increases after = 1 /\ decreases after = 0.
Proof.
  apply (C8_counters_follow_scraping_frequency env0 60 45
           "high turnover rate" "high" ∅ (scraper0 60 10 240)).
  lia.
Defined.

(** C8 as stated fails: a recorded adjustment from 60 to 70 minutes (rule
    "low turnover rate") leaves 'increases' alone and increments
    'decreases'. *)
Lemma C8_longer_interval_counts_as_decrease :
  let self := scraper0 60 10 240 in
  let self' :=
    adjust_frequency env0 (Some (data_of (stats_of 7 100) (stats_of 7 100)))
      self in
  current_frequency self = 60 /\ current_frequency self' = 70
  /\ length (adjustments (adjustment_history self')) = 1%nat
  /\ increases (stats (adjustment_history self'))
     = increases (stats (adjustment_history self))
  /\ decreases (stats (adjustment_history self'))
     = decreases (stats (adjustment_history self)) + 1.
Proof. vm_compute. repeat split; reflexivity. Qed.

(** ** [set_frequency_bounds] *)

(** C6 (as amended).  After [set_frequency_bounds], [min_frequency] is at
    least 5 and [max_frequency] is at most 360, whatever the caller supplies;
    [min_frequency] is also at most 360 when [min_minutes] is, and
    [max_frequency] is also at least 5 when [max_minutes] is. *)
Theorem C6_bounds_floor_and_ceiling
    (min_minutes max_minutes : Z) (self : AdaptiveScraper) :
  let self' := set_frequency_bounds min_minutes max_minutes self in
  5 <= min_frequency self'
  /\ max_frequency self' <= 360
  /\ min_frequency self' = Z.max 5 min_minutes
  /\ max_frequency self' = Z.min 360 max_minutes
  /\ (min_minutes <= 360 -> min_frequency self' <= 360)
  /\ (5 <= max_minutes -> 5 <= max_frequency self').
Proof. cbv zeta. unfold set_frequency_bounds. simpl. lia. Qed.

Lemma C6_witness :
  let self' := set_frequency_bounds 10 240 (init env0 60) in
  min_frequency self' <= 360 /\ 5 <= max_frequency self'.
Proof.
  cbv zeta. split.
  - apply (C6_bounds_floor_and_ceiling 10 240 (init env0 60)). lia.
  - apply (C6_bounds_floor_and_ceiling 10 240 (init env0 60)). lia.
Defined.

(** C6 as stated fails: [set_frequency_bounds(1000, 1)] leaves a minimum
    above 360 and a maximum below 5. *)
Lemma C6_bounds_outside_absolute_range :
  let self' := set_frequency_bounds 1000 1 (init env0 60) in
  min_frequency self' = 1000 /\ max_frequency self' = 1
  /\ ~ (min_frequency self' <= 360) /\ ~ (5 <= max_frequency self').
Proof. vm_compute. repeat split; try reflexivity; intros H; apply H; reflexivity. Qed.

(** ** [adjust_frequency] below the threshold *)

(** C5.  With fewer scrapes than [adjustment_threshold],
    [adjust_frequency] returns the object as it was, whatever the turnover
    data and the environment: the interval, the adjustment history with its
    counters, and [last_adjustment_time] are unchanged. *)
Theorem C5_below_threshold_noop
    (env : Env) (turnover_data : option TurnoverData) (self : AdaptiveScraper) :
  scrape_count self < adjustment_threshold self ->
  adjust_frequency env turnover_data self = self.
Proof.
  intros H. unfold adjust_frequency.
  destruct (Z.ltb_spec (scrape_count self) (adjustment_threshold self));
    [reflexivity|lia].
Qed.

Lemma C5_witness :
  let self := after_scrapes 4 (init env0 60) in
  adjust_frequency env0 (Some (data_of (stats_of 60 100) (stats_of 60 100)))
    self = self.
Proof.
  apply (C5_below_threshold_noop env0
           (Some (data_of (stats_of 60 100) (stats_of 60 100)))
           (after_scrapes 4 (init env0 60))).
  simpl. lia.
Defined.

(** ** [adjust_frequency] at or above the threshold *)

(** C1 (as amended).  On an eligible call whose data yields an average
    turnover value above 50, the rule "very high turnover rate" fires and
    the new interval is
    [clamp (max min_frequency (min 15 (current - 15)))]: it is at least
    [min_frequency]; it is at most 15 whenever [min_frequency] is; and it is
    then a decrease whenever the old interval exceeded 15. *)
Theorem C1_very_high_turnover
    (env : Env) (turnover_data data : option TurnoverData)
    (avg_turnover avg_lifetime : Q) (self : AdaptiveScraper) :
  adjustment_threshold self <= scrape_count self ->
  effective_data env turnover_data = Some data ->
  extract_metrics data = Some (avg_turnover, avg_lifetime) ->
  (50 < avg_turnover)%Q ->
  let new := current_frequency (adjust_frequency env turnover_data self) in
  fired_rule env turnover_data self = Some "very high turnover rate"
  /\ new = clamp self (Z.max (min_frequency self)
                         (Z.min 15 (current_frequency self - 15)))
  /\ min_frequency self <= new
  /\ (min_frequency self <= 15 -> new <= 15)
  /\ (min_frequency self <= 15 -> 15 < current_frequency self ->
      new < current_frequency self).
Proof.
  intros Hn Hd Hm Ht new. subst new.
  rewrite (fired_rule_eligible env turnover_data self data _ _ Hn Hd Hm).
  rewrite (adjust_frequency_current env turnover_data self data _ _ Hn Hd Hm).
  rewrite (apply_rules_very_high self _ _ Ht). simpl. unfold clamp.
  repeat split; lia.
Qed.

Lemma C1_witness :
  current_frequency
    (adjust_frequency env0 (Some (data_of (stats_of 60 100) (stats_of 60 100)))
       (scraper0 60 10 240)) = 15.
Proof.
  destruct (C1_very_high_turnover env0
              (Some (data_of (stats_of 60 100) (stats_of 60 100)))
              (Some (data_of (stats_of 60 100) (stats_of 60 100)))
              ((60 + 60) / 2)%Q ((100 + 100) / 2)%Q (scraper0 60 10 240))
    as (_ & Hnew & _).
  - simpl. lia.
  - reflexivity.
  - reflexivity.
  - reflexivity.
  - exact Hnew.
Defined.

(** C1 as stated fails: with bounds configured by
    [set_frequency_bounds(20, 240)] the rule fires on turnover values of 60
    and the interval becomes the minimum bound, 20, which is above 15. *)
Lemma C1_min_bound_above_15 :
  let self := scraper0 60 20 240 in
  let data := Some (data_of (stats_of 60 100) (stats_of 60 100)) in
  let new := current_frequency (adjust_frequency env0 data self) in
  fired_rule env0 data self = Some "very high turnover rate"
  /\ min_frequency self = 20 /\ new = 20
  /\ ~ (min_frequency self <= new <= 15).
Proof.
  vm_compute. repeat split; try reflexivity.
  intros [_ H]. apply H. reflexivity.
Qed.

(** C2 (as amended).  On an eligible call with average turnover below 5 and
    average lifetime above 180 the rule "very low turnover and long deal
    lifetime" fires and the new interval is
    [clamp (min max_frequency (max 120 (current + 20)))]; from 60 minutes
    with maximum 240 and a minimum of at most 120 this is
    min(240, max(120, 80)) = 120 minutes. *)
Theorem C2_very_low_turnover_long_lifetime
    (env : Env) (turnover_data data : option TurnoverData)
    (avg_turnover avg_lifetime : Q) (self : AdaptiveScraper) :
  adjustment_threshold self <= scrape_count self ->
  effective_data env turnover_data = Some data ->
  extract_metrics data = Some (avg_turnover, avg_lifetime) ->
  (avg_turnover < 5)%Q -> (180 < avg_lifetime)%Q ->
  let new := current_frequency (adjust_frequency env turnover_data self) in
  fired_rule env turnover_data self
  = Some "very low turnover and long deal lifetime"
  /\ new = clamp self (Z.min (max_frequency self)
                         (Z.max 120 (current_frequency self + 20)))
  /\ (current_frequency self = 60 -> max_frequency self = 240 ->
      min_frequency self <= 120 ->
      new = Z.min 240 (Z.max 120 (60 + 20)) /\ new = 120).
Proof.
  intros Hn Hd Hm Ht Hl new. subst new.
  rewrite (fired_rule_eligible env turnover_data self data _ _ Hn Hd Hm).
  rewrite (adjust_frequency_current env turnover_data self data _ _ Hn Hd Hm).
  rewrite (apply_rules_very_low self _ _ Ht Hl). simpl. unfold clamp.
  repeat split; lia.
Qed.

Lemma C2_witness :
  current_frequency
    (adjust_frequency env0 (Some (data_of (stats_of 3 200) (stats_of 3 200)))
       (scraper0 60 10 240)) = 120.
Proof.
  destruct (C2_very_low_turnover_long_lifetime env0
              (Some (data_of (stats_of 3 200) (stats_of 3 200)))
              (Some (data_of (stats_of 3 200) (stats_of 3 200)))
              ((3 + 3) / 2)%Q ((200 + 200) / 2)%Q (scraper0 60 10 240))
    as (_ & _ & Hnew).
  - simpl. lia.
  - reflexivity.
  - reflexivity.
  - reflexivity.
  - reflexivity.
  - apply Hnew; [reflexivity|reflexivity|simpl; lia].
Defined.

(** C2 as stated fails: in the worked example the interval becomes 120
    minutes, not 80. *)
Lemma C2_example_gives_120 :
  let self := scraper0 60 10 240 in
  let data := Some (data_of (stats_of 3 200) (stats_of 3 200)) in
  let new := current_frequency (adjust_frequency env0 data self) in
  extract_metrics data = Some ((3 + 3) / 2, (200 + 200) / 2)%Q
  /\ current_frequency self = 60 /\ max_frequency self = 240
  /\ fired_rule env0 data self
     = Some "very low turnover and long deal lifetime"
  /\ new = 120 /\ new <> 80.
Proof. vm_compute. repeat split; try reflexivity. discriminate. Qed.

(** On an object whose history has the shape this class writes: an
    eligible call with readable data appends a record exactly when the
    clamped new interval differs from the old one (and then
    'total_adjustments' grows by one); when they are equal the history,
    counters included, is unchanged; in both cases [last_adjustment_time]
    is set to the current time. *)
Lemma typed_history_records_changes
    (env : Env) (turnover_data data : option TurnoverData)
    (avg_turnover avg_lifetime : Q) (self : AdaptiveScraper) :
  adjustment_threshold self <= scrape_count self ->
  effective_data env turnover_data = Some data ->
  extract_metrics data = Some (avg_turnover, avg_lifetime) ->
  let self' := adjust_frequency env turnover_data self in
  let old := current_frequency self in
  let new := current_frequency self' in
  let h := adjustment_history self in
  let h' := adjustment_history self' in
  new = clamp self (decided_frequency (apply_rules self avg_turnover avg_lifetime))
  /\ ((exists r, adjustments h' = adjustments h ++ [r]) <-> new <> old)
  /\ (new <> old ->
      exists r, adjustments h' = adjustments h ++ [r]
                /\ old_frequency r = old /\ new_frequency r = new
                /\ total_adjustments (stats h') = total_adjustments (stats h) + 1)
  /\ (new = old -> h' = h)
  /\ last_adjustment_time self' = Some (now env).
Proof.
  intros Hn Hd Hm. cbv zeta.
  rewrite (adjust_frequency_eligible env turnover_data self data _ _ Hn Hd Hm).
  unfold adjusted.
  set (d := apply_rules self avg_turnover avg_lifetime).
  set (new := clamp self (decided_frequency d)).
  destruct (Z.eqb_spec (current_frequency self) new) as [E|E]; simpl.
  - split; [reflexivity|]. split; [|split; [|split]].
    + split; [|congruence]. intros [r Hr].
      apply (f_equal (@length Adjustment)) in Hr.
      rewrite length_app in Hr. simpl in Hr. lia.
    + congruence.
    + reflexivity.
    + reflexivity.
  - set (s := with_current_frequency new self).
    assert (Hcur : current_frequency
              (_log_adjustment env (current_frequency self) new
                 (decided_reason d) (decided_confidence d)
                 (default ∅ data) s) = new).
    { unfold _log_adjustment. rewrite save_current. reflexivity. }
    destruct (log_adjustment_appends env (current_frequency self) new
                (decided_reason d) (decided_confidence d) (default ∅ data) s)
      as (r & Hr & Ho & Hnw & _).
    pose proof (log_adjustment_total env (current_frequency self) new
                  (decided_reason d) (decided_confidence d) (default ∅ data) s)
      as Ht.
    rewrite Hcur. split; [reflexivity|]. split; [|split; [|split]].
    + split; [congruence|]. intros _. exists r. exact Hr.
    + intros _. exists r. repeat split; assumption.
    + congruence.
    + reflexivity.
Qed.

(** C9 (as amended).  On an eligible call whose per-source statistics carry
    neither a turnover rate nor an average lifetime, the defaults (turnover
    0, lifetime 120) select the rule "low turnover rate": the new interval
    is [clamp (min max_frequency (current + 10))], which is longer than the
    old one whenever the old one is below [max_frequency]. *)
Theorem C9_no_statistics_lengthens_interval
    (env : Env) (turnover_data : option TurnoverData) (data : TurnoverData)
    (gcx_stats cardcash_stats : Stats) (self : AdaptiveScraper) :
  adjustment_threshold self <= scrape_count self ->
  effective_data env turnover_data = Some (Some data) ->
  source_stats "gcx_stats" data = Some gcx_stats ->
  source_stats "cardcash_stats" data = Some cardcash_stats ->
  gcx_stats !! "turnover_rate" = None ->
  gcx_stats !! "avg_lifetime_minutes" = None ->
  cardcash_stats !! "turnover_rate" = None ->
  cardcash_stats !! "avg_lifetime_minutes" = None ->
  let new := current_frequency (adjust_frequency env turnover_data self) in
  fired_rule env turnover_data self = Some "low turnover rate"
  /\ new = clamp self (Z.min (max_frequency self) (current_frequency self + 10))
  /\ (current_frequency self < max_frequency self ->
      current_frequency self < new)
  /\ (min_frequency self <= current_frequency self + 10 <= max_frequency self ->
      new = current_frequency self + 10).
Proof.
  intros Hn Hd Hg Hc Hgt Hgl Hct Hcl new. subst new.
  assert (Hm : extract_metrics (Some data)
               = Some ((0 + 0) / 2, (120 + 120) / 2)%Q).
  { unfold extract_metrics. simpl. rewrite Hg, Hc. simpl.
    unfold get. rewrite Hgt, Hgl, Hct, Hcl. reflexivity. }
  rewrite (fired_rule_eligible env turnover_data self _ _ _ Hn Hd Hm).
  rewrite (adjust_frequency_current env turnover_data self _ _ _ Hn Hd Hm).
  rewrite apply_rules_low; [|reflexivity|unfold Qle; simpl; lia].
  simpl. unfold clamp. repeat split; lia.
Qed.

Lemma C9_witness :
  current_frequency
    (adjust_frequency env0 (Some no_items_data) (scraper0 60 10 240))
  = 60 + 10.
Proof.
  apply (C9_no_statistics_lengthens_interval env0 (Some no_items_data)
           no_items_data (_calculate_turnover_stats ∅ 3 10)
           (_calculate_turnover_stats ∅ 3 10) (scraper0 60 10 240));
    try reflexivity; simpl; lia.
Defined.

(** C9 as stated fails: with the statistics of two sources that showed no
    item, the interval moves from 60 to 70 minutes and the change is
    recorded. *)
Lemma C9_no_items_changes_interval :
  let self := scraper0 60 10 240 in
  let self' := adjust_frequency env0 (Some no_items_data) self in
  _calculate_turnover_stats ∅ 3 10 = {[ "total_deals_seen" := 0%Q ]}
  /\ current_frequency self = 60 /\ current_frequency self' = 70
  /\ current_frequency self' <> current_frequency self
  /\ length (adjustments (adjustment_history self')) = 1%nat.
Proof. vm_compute. repeat split; try reflexivity. discriminate. Qed.

(** ** Analyzer output fed to the controller *)

Lemma extract_metrics_data_of (g c : Stats) :
  extract_metrics (Some (data_of g c))
  = Some (((get "turnover_rate" 0 g + get "turnover_rate" 0 c) / 2)%Q,
          ((get "avg_lifetime_minutes" 120 g
            + get "avg_lifetime_minutes" 120 c) / 2)%Q).
Proof.
  unfold extract_metrics, source_stats, data_of. simpl.
  rewrite lookup_insert_eq. simpl.
  rewrite lookup_insert_ne by discriminate.
  rewrite lookup_singleton_eq. reflexivity.
Qed.

(** [_calculate_turnover_stats] reports turnover as a fraction, while the
    rule table compares it with 50 and 30: on statistics that come from the
    analyzer the two high-turnover rules cannot fire. *)
Lemma analyzer_turnover_never_high
    (env : Env) (gcx cardcash : Timeline) (num_snapshots : Z)
    (interval_minutes : Q) (self : AdaptiveScraper) :
  let data :=
    Some (data_of
            (_calculate_turnover_stats gcx num_snapshots interval_minutes)
            (_calculate_turnover_stats cardcash num_snapshots interval_minutes)) in
  fired_rule env data self <> Some "very high turnover rate"
  /\ fired_rule env data self <> Some "high turnover rate".
Proof.
  cbv zeta. unfold fired_rule.
  destruct (scrape_count self <? adjustment_threshold self);
    [split; discriminate|].
  set (g := _calculate_turnover_stats gcx num_snapshots interval_minutes).
  set (c := _calculate_turnover_stats cardcash num_snapshots interval_minutes).
  assert (Hfalsy : effective_data env (Some (data_of g c))
                   = Some (Some (data_of g c))) by reflexivity.
  rewrite Hfalsy. cbn -[extract_metrics apply_rules].
  rewrite extract_metrics_data_of. cbn -[apply_rules get].
  pose proof (turnover_rate_read_unit gcx num_snapshots interval_minutes)
    as [_ Hg].
  pose proof (turnover_rate_read_unit cardcash num_snapshots interval_minutes)
    as [_ Hc].
  fold g in Hg. fold c in Hc.
  set (t := ((get "turnover_rate" 0 g + get "turnover_rate" 0 c) / 2)%Q).
  assert (Ht : (t <= 1)%Q).
  { unfold t. apply Qle_shift_div_r; [reflexivity|].
    change (1 * 2)%Q with (1 + 1)%Q. apply Qplus_le_compat; assumption. }
  unfold apply_rules.
  assert (H50 : Qgtb t 50 = false).
  { apply Qgtb_false. eapply Qle_trans; [exact Ht|discriminate]. }
  assert (H30 : Qgtb t 30 = false).
  { apply Qgtb_false. eapply Qle_trans; [exact Ht|discriminate]. }
  rewrite H50, H30.
  destruct (_ && _); [split; discriminate|].
  destruct (Qltb t 10); [split; discriminate|].
  destruct (Qltb _ 30); split; discriminate.
Qed.

Example analyzer_sixty_percent_turnover :
  let s := _calculate_turnover_stats session_three_of_five 3 10 in
  let self := scraper0 60 10 240 in
  let self' := adjust_frequency env0 (Some (data_of s s)) self in
  s !! "turnover_rate" = Some (3 / 5)%Q
  /\ fired_rule env0 (Some (data_of s s)) self = Some "low turnover rate"
  /\ current_frequency self' = 70.
Proof. vm_compute. repeat split; reflexivity. Qed.


(* ================================================================== *)
(** * Further properties of the frequency controller *)

(** The two outcomes of a call: nothing happens, or the rule table runs. *)
Lemma adjust_frequency_cases
    (env : Env) (turnover_data : option TurnoverData) (self : AdaptiveScraper) :
  adjust_frequency env turnover_data self = self
  \/ exists data t l,
       adjustment_threshold self <= scrape_count self
       /\ effective_data env turnover_data = Some data
       /\ extract_metrics data = Some (t, l)
       /\ adjust_frequency env turnover_data self = adjusted env data t l self.
Proof.
  unfold adjust_frequency, adjusted.
  destruct (Z.ltb_spec (scrape_count self) (adjustment_threshold self));
    [left; reflexivity|].
  destruct (effective_data env turnover_data) as [data|]; [|left; reflexivity].
  destruct (extract_metrics data) as [[t l]|] eqn:E; [|left; reflexivity].
  right. exists data, t, l. repeat split; try assumption; lia.
Qed.

(** What [adjusted] does to the interval and to the history. *)
Lemma adjusted_effect
    (env : Env) (data : option TurnoverData) (t l : Q) (self : AdaptiveScraper) :
  let self' := adjusted env data t l self in
  let d := apply_rules self t l in
  let old := current_frequency self in
  let new := clamp self (decided_frequency d) in
  let h := adjustment_history self in
  let h' := adjustment_history self' in
  current_frequency self' = new
  /\ ((new = old /\ h' = h)
      \/ (new <> old
          /\ adjustments h'
             = adjustments h
               ++ [mkAdjustment (now env) old new (decided_reason d)
                     (decided_confidence d)
                     (mkMetrics
                        (source_metric "gcx_stats" "turnover_rate" 0
                           (default ∅ data))
                        (source_metric "cardcash_stats" "turnover_rate" 0
                           (default ∅ data))
                        ((source_metric "gcx_stats" "avg_lifetime_minutes" 0
                            (default ∅ data)
                          + source_metric "cardcash_stats"
                              "avg_lifetime_minutes" 0 (default ∅ data)) / 2)%Q
                        (scrape_count self))]
          /\ total_adjustments (stats h') = total_adjustments (stats h) + 1
          /\ increases (stats h')
             = increases (stats h) + (if new <? old then 1 else 0)
          /\ decreases (stats h')
             = decreases (stats h) + (if new <? old then 0 else 1)
          /\ last_updated (stats h')
             = if log_file_writable env then now env
               else last_updated (stats h))).
Proof.
  cbv zeta. unfold adjusted.
  set (d := apply_rules self t l).
  set (new := clamp self (decided_frequency d)).
  destruct (Z.eqb_spec (current_frequency self) new) as [E|E]; simpl.
  - split; [reflexivity|]. left. split; [congruence|reflexivity].
  - unfold _log_adjustment, _save_adjustment_history.
    destruct (log_file_writable env), (Z.ltb_spec new (current_frequency self));
      simpl; (split; [reflexivity|]); right;
      (split; [congruence|]); repeat split; lia.
Qed.

Lemma adjusted_frame
    (env : Env) (data : option TurnoverData) (t l : Q) (self : AdaptiveScraper) :
  let self' := adjusted env data t l self in
  min_frequency self' = min_frequency self
  /\ max_frequency self' = max_frequency self
  /\ adjustment_threshold self' = adjustment_threshold self
  /\ scrape_count self' = scrape_count self
  /\ running self' = running self.
Proof.
  cbv zeta. unfold adjusted, _log_adjustment, _save_adjustment_history.
  destruct (negb _), (log_file_writable env); simpl; repeat split; reflexivity.
Qed.

(** X1.  An eligible call with readable data leaves the interval at or
    above [min_frequency]; at or below [max_frequency] when the bounds are
    not inverted; and exactly at [min_frequency] when they are. *)
Theorem adjust_frequency_within_bounds
    (env : Env) (turnover_data data : option TurnoverData)
    (avg_turnover avg_lifetime : Q) (self : AdaptiveScraper) :
  adjustment_threshold self <= scrape_count self ->
  effective_data env turnover_data = Some data ->
  extract_metrics data = Some (avg_turnover, avg_lifetime) ->
  let new := current_frequency (adjust_frequency env turnover_data self) in
  min_frequency self <= new
  /\ (min_frequency self <= max_frequency self -> new <= max_frequency self)
  /\ (max_frequency self < min_frequency self -> new = min_frequency self).
Proof.
  intros Hn Hd Hm new. subst new.
  rewrite (adjust_frequency_current env turnover_data self data _ _ Hn Hd Hm).
  unfold clamp. lia.
Qed.

Lemma adjust_frequency_within_bounds_witness :
  let new :=
    current_frequency
      (adjust_frequency env0 (Some (data_of (stats_of 1 500) (stats_of 1 500)))
         (scraper0 230 10 240)) in
  10 <= new /\ new <= 240.
Proof.
  destruct (adjust_frequency_within_bounds env0
              (Some (data_of (stats_of 1 500) (stats_of 1 500)))
              (Some (data_of (stats_of 1 500) (stats_of 1 500)))
              ((1 + 1) / 2)%Q ((500 + 500) / 2)%Q (scraper0 230 10 240))
    as (Hlo & Hhi & _).
  - simpl. lia.
  - reflexivity.
  - reflexivity.
  - split; [exact Hlo|apply Hhi; simpl; lia].
Defined.

(** X2.  Once [set_frequency_bounds] has run, an eligible call with readable
    data leaves the interval at 5 minutes or more, and at 360 minutes or
    less when the bounds it stored are not inverted. *)
Theorem configured_interval_in_absolute_range
    (env : Env) (turnover_data data : option TurnoverData)
    (avg_turnover avg_lifetime : Q) (lo hi : Z) (self : AdaptiveScraper) :
  let configured := set_frequency_bounds lo hi self in
  adjustment_threshold configured <= scrape_count configured ->
  effective_data env turnover_data = Some data ->
  extract_metrics data = Some (avg_turnover, avg_lifetime) ->
  let new := current_frequency (adjust_frequency env turnover_data configured) in
  5 <= new
  /\ (Z.max 5 lo <= Z.min 360 hi -> Z.max 5 lo <= new <= Z.min 360 hi)
  /\ (Z.max 5 lo <= Z.min 360 hi -> new <= 360).
Proof.
  intros configured Hn Hd Hm new. subst new.
  rewrite (adjust_frequency_current env turnover_data configured data _ _
             Hn Hd Hm).
  unfold clamp, configured, set_frequency_bounds. simpl. lia.
Qed.

Lemma configured_interval_in_absolute_range_witness :
  let new :=
    current_frequency
      (adjust_frequency env0 (Some (data_of (stats_of 1 500) (stats_of 1 500)))
         (set_frequency_bounds 1 1000 (after_scrapes 5 (init env0 5000)))) in
  5 <= new <= 360.
Proof.
  destruct (configured_interval_in_absolute_range env0
              (Some (data_of (stats_of 1 500) (stats_of 1 500)))
              (Some (data_of (stats_of 1 500) (stats_of 1 500)))
              ((1 + 1) / 2)%Q ((500 + 500) / 2)%Q 1 1000
              (after_scrapes 5 (init env0 5000)))
    as (Hlo & _ & Hhi).
  - simpl. lia.
  - reflexivity.
  - reflexivity.
  - split; [exact Hlo|apply Hhi; simpl; lia].
Defined.

(** The fields a call leaves alone. *)
Lemma adjust_frequency_frame
    (env : Env) (turnover_data : option TurnoverData) (self : AdaptiveScraper) :
  let self' := adjust_frequency env turnover_data self in
  min_frequency self' = min_frequency self
  /\ max_frequency self' = max_frequency self
  /\ adjustment_threshold self' = adjustment_threshold self
  /\ scrape_count self' = scrape_count self
  /\ running self' = running self.
Proof.
  cbv zeta.
  destruct (adjust_frequency_cases env turnover_data self)
    as [->|(data & t & l & _ & _ & _ & ->)].
  - repeat split; reflexivity.
  - apply adjusted_frame.
Qed.

(** X3.  No call, whatever its data and environment, writes the bounds, the
    threshold, the scrape counter or the running flag. *)
Theorem adjust_frequency_preserves_configuration
    (env : Env) (turnover_data : option TurnoverData) (self : AdaptiveScraper) :
  let self' := adjust_frequency env turnover_data self in
  min_frequency self' = min_frequency self
  /\ max_frequency self' = max_frequency self
  /\ adjustment_threshold self' = adjustment_threshold self
  /\ scrape_count self' = scrape_count self
  /\ running self' = running self.
Proof.
  intros self'. subst self'.
  apply (adjust_frequency_frame env turnover_data self).
Qed.

(** X4.  When the rule table cannot be reached although enough scrapes have
    accumulated (the quick analysis raised, or reading the metrics raised
    because the data is [None] or a per-source entry is not a dictionary),
    the object is left exactly as it was: the interval, the history and
    [last_adjustment_time] included. *)
Theorem adjust_frequency_unreadable_data_noop
    (env : Env) (turnover_data : option TurnoverData) (self : AdaptiveScraper) :
  (effective_data env turnover_data = None
   \/ exists data, effective_data env turnover_data = Some data
                   /\ extract_metrics data = None) ->
  adjust_frequency env turnover_data self = self.
Proof.
  intros H. unfold adjust_frequency.
  destruct (scrape_count self <? adjustment_threshold self); [reflexivity|].
  destruct H as [->|(data & -> & ->)]; reflexivity.
Qed.

Lemma adjust_frequency_unreadable_data_noop_witness :
  adjust_frequency env0 (Some broken_data) (scraper0 60 10 240)
  = scraper0 60 10 240
  /\ adjust_frequency env0 None (scraper0 60 10 240) = scraper0 60 10 240.
Proof.
  split.
  - apply (adjust_frequency_unreadable_data_noop env0 (Some broken_data)
             (scraper0 60 10 240)).
    right. exists (Some broken_data). split; reflexivity.
  - apply (adjust_frequency_unreadable_data_noop env0 None (scraper0 60 10 240)).
    left. reflexivity.
Defined.

(** Decide every comparison of the rule table and turn the outcomes into
    facts about the metrics. *)
Ltac rule_cases :=
  unfold apply_rules;
  repeat match goal with
    | |- context [Qgtb ?a ?b] =>
        let E := fresh "E" in
        destruct (Qgtb a b) eqn:E;
        [apply Qgtb_true in E | apply Qgtb_false in E]
    | |- context [Qltb ?a ?b] =>
        let E := fresh "E" in
        destruct (Qltb a b) eqn:E;
        [apply Qltb_true in E | apply Qltb_false in E]
    end;
  cbn [andb decided_frequency decided_reason decided_confidence].

(** X5.  From an interval inside non-inverted bounds, an eligible call
    moves the interval in the direction of its metrics: never up when the
    average turnover is above 30, never down when it is below 10; between
    the two it moves down when the average lifetime is below 30 and stays
    put otherwise. *)
Theorem adjust_frequency_direction
    (env : Env) (turnover_data data : option TurnoverData)
    (avg_turnover avg_lifetime : Q) (self : AdaptiveScraper) :
  adjustment_threshold self <= scrape_count self ->
  effective_data env turnover_data = Some data ->
  extract_metrics data = Some (avg_turnover, avg_lifetime) ->
  min_frequency self <= current_frequency self <= max_frequency self ->
  let old := current_frequency self in
  let new := current_frequency (adjust_frequency env turnover_data self) in
  ((30 < avg_turnover)%Q -> new <= old)
  /\ ((avg_turnover < 10)%Q -> old <= new)
  /\ ((10 <= avg_turnover <= 30)%Q -> (avg_lifetime < 30)%Q -> new <= old)
  /\ ((10 <= avg_turnover <= 30)%Q -> (30 <= avg_lifetime)%Q -> new = old).
Proof.
  intros Hn Hd Hm Hb old new. subst old new.
  rewrite (adjust_frequency_current env turnover_data self data _ _ Hn Hd Hm).
  unfold clamp.
  repeat split; intros; rule_cases; try lia; exfalso; lra.
Qed.

Lemma adjust_frequency_direction_witness :
  current_frequency
    (adjust_frequency env0 (Some (data_of (stats_of 40 100) (stats_of 40 100)))
       (scraper0 60 10 240)) <= 60.
Proof.
  destruct (adjust_frequency_direction env0
              (Some (data_of (stats_of 40 100) (stats_of 40 100)))
              (Some (data_of (stats_of 40 100) (stats_of 40 100)))
              ((40 + 40) / 2)%Q ((100 + 100) / 2)%Q (scraper0 60 10 240))
    as (Hdown & _).
  - simpl. lia.
  - reflexivity.
  - reflexivity.
  - simpl. lia.
  - apply Hdown. reflexivity.
Defined.

(** X6.  From an interval inside non-inverted bounds, a step of the rule
    table is at most 20 minutes up or 15 minutes down, except for the jumps
    to the targets of 15, 30 and 120 minutes. *)
Theorem adjust_frequency_step_size
    (env : Env) (turnover_data data : option TurnoverData)
    (avg_turnover avg_lifetime : Q) (self : AdaptiveScraper) :
  adjustment_threshold self <= scrape_count self ->
  effective_data env turnover_data = Some data ->
  extract_metrics data = Some (avg_turnover, avg_lifetime) ->
  min_frequency self <= current_frequency self <= max_frequency self ->
  let old := current_frequency self in
  let new := current_frequency (adjust_frequency env turnover_data self) in
  (new < old - 15 -> new = Z.max (min_frequency self) 15
                     \/ new = Z.max (min_frequency self) 30)
  /\ (old + 20 < new -> new = Z.min (max_frequency self) 120).
Proof.
  intros Hn Hd Hm Hb old new. subst old new.
  rewrite (adjust_frequency_current env turnover_data self data _ _ Hn Hd Hm).
  unfold clamp.
  split; rule_cases; intros; lia.
Qed.

Lemma adjust_frequency_step_size_witness :
  let new :=
    current_frequency
      (adjust_frequency env0 (Some (data_of (stats_of 60 100) (stats_of 60 100)))
         (scraper0 200 10 240)) in
  new = 15 \/ new = 30.
Proof.
  destruct (adjust_frequency_step_size env0
              (Some (data_of (stats_of 60 100) (stats_of 60 100)))
              (Some (data_of (stats_of 60 100) (stats_of 60 100)))
              ((60 + 60) / 2)%Q ((100 + 100) / 2)%Q (scraper0 200 10 240))
    as (Hjump & _).
  - simpl. lia.
  - reflexivity.
  - reflexivity.
  - simpl. lia.
  - apply Hjump. vm_compute. reflexivity.
Defined.

(** ** The adjustment log over the life of the object *)

Lemma chained_snoc (start : Z) (log : list Adjustment) (current : Z)
      (r : Adjustment) :
  chained start log current ->
  old_frequency r = current ->
  chained start (log ++ [r]) (new_frequency r).
Proof.
  revert start. induction log as [|r0 log IH]; intros start Hc Ho; simpl in *.
  - split; [congruence|reflexivity].
  - destruct Hc as [H0 Hc]. split; [exact H0|]. apply IH; assumption.
Qed.

Lemma counters_match_log_snoc (h : AdjustmentHistory)
      (log' : list Adjustment) (s' : HistoryStats) (r : Adjustment) :
  counters_match_log h ->
  old_frequency r <> new_frequency r ->
  log' = adjustments h ++ [r] ->
  total_adjustments s' = total_adjustments (stats h) + 1 ->
  increases s'
  = increases (stats h) + (if new_frequency r <? old_frequency r then 1 else 0) ->
  decreases s'
  = decreases (stats h) + (if new_frequency r <? old_frequency r then 0 else 1) ->
  counters_match_log (mkHistory log' s').
Proof.
  intros (Ht & Hi & Hd & Hall) Hne -> Ht' Hi' Hd'.
  unfold counters_match_log. simpl.
  rewrite !List.filter_app, !length_app. simpl.
  unfold shortens at 2, lengthens at 2.
  destruct (Z.ltb_spec (new_frequency r) (old_frequency r)),
           (Z.ltb_spec (old_frequency r) (new_frequency r));
    try lia; simpl; (repeat split; [lia..|]);
    (apply Forall_app; split; [exact Hall|constructor; [exact Hne|constructor]]).
Qed.

(** Every way of reaching a state keeps the log in step with the counters
    and with the interval. *)
Lemma reachable_log (initial : Z) (self : AdaptiveScraper) :
  reachable_from initial self ->
  counters_match_log (adjustment_history self)
  /\ chained initial (adjustments (adjustment_history self))
       (current_frequency self).
Proof.
  induction 1 as [env|lo hi self _ IH|threshold self _ IH|self _ IH
                 |env td self _ IH].
  - split; [|reflexivity]. repeat split; constructor.
  - exact IH.
  - exact IH.
  - exact IH.
  - destruct (adjust_frequency_cases env td self)
      as [->|(data & t & l & _ & _ & _ & ->)]; [exact IH|].
    destruct IH as [Hc Hch].
    destruct (adjusted_effect env data t l self)
      as (Hcur & [(Hsame & Hh)|(Hne & Hlog & Ht & Hi & Hd & _)]).
    + rewrite Hcur, Hh, Hsame. split; assumption.
    + rewrite Hcur. split.
      * destruct (adjustment_history (adjusted env data t l self))
          as [log' s'] eqn:Eh. simpl in *.
        eapply counters_match_log_snoc;
          [exact Hc| |exact Hlog|exact Ht|exact Hi|exact Hd].
        simpl. congruence.
      * rewrite Hlog.
        match goal with
        | |- chained _ (_ ++ [?r]) ?c =>
            change c with (new_frequency r)
        end.
        apply chained_snoc with (current := current_frequency self);
          [exact Hch|reflexivity].
Qed.

(** X7.  In every state reached from a fresh history, the summary counters
    can be recomputed from the log: 'total_adjustments' is its length,
    'increases' the number of records that shorten the interval,
    'decreases' the number that lengthen it, the two add up to the total,
    and no record has equal old and new intervals. *)
Theorem counters_agree_with_log (initial : Z) (self : AdaptiveScraper) :
  reachable_from initial self ->
  let h := adjustment_history self in
  counters_match_log h
  /\ total_adjustments (stats h) = increases (stats h) + decreases (stats h).
Proof.
  intros Hr h. destruct (reachable_log initial self Hr) as [Hc _].
  split; [exact Hc|]. subst h.
  destruct Hc as (Ht & Hi & Hd & Hall). rewrite Ht, Hi, Hd.
  clear Ht Hi Hd. induction Hall as [|r log Hr' _ IH]; [reflexivity|].
  simpl. unfold shortens at 1, lengthens at 1.
  destruct (Z.ltb_spec (new_frequency r) (old_frequency r)),
           (Z.ltb_spec (old_frequency r) (new_frequency r));
    simpl length; lia.
Qed.

Lemma two_adjustments_reachable : reachable_from 60 two_adjustments.
Proof.
  unfold two_adjustments.
  do 2 apply reach_adjust. do 5 apply reach_scrape.
  apply reach_bounds. apply reach_init.
Qed.

Lemma counters_agree_with_log_witness :
  let h := adjustment_history two_adjustments in
  total_adjustments (stats h) = increases (stats h) + decreases (stats h)
  /\ length (adjustments h) = 2%nat.
Proof.
  split.
  - apply (counters_agree_with_log 60 two_adjustments).
    exact two_adjustments_reachable.
  - reflexivity.
Defined.

(** X8.  In every state reached from a fresh history, the log is a chain
    from the initial interval to the current one: the first record starts
    at the initial interval, each record starts where the previous one
    ended, and the last one ends at [current_frequency]. *)
Theorem log_chains_to_current_interval (initial : Z) (self : AdaptiveScraper) :
  reachable_from initial self ->
  chained initial (adjustments (adjustment_history self))
    (current_frequency self).
Proof. intros Hr. apply (reachable_log initial self Hr). Qed.

Lemma log_chains_to_current_interval_witness :
  chained 60 (adjustments (adjustment_history two_adjustments))
    (current_frequency two_adjustments)
  /\ current_frequency two_adjustments = 25.
Proof.
  split.
  - apply (log_chains_to_current_interval 60 two_adjustments).
    exact two_adjustments_reachable.
  - reflexivity.
Defined.

(** ** What a recorded adjustment holds *)

(** The typed object: an interval-changing call is recorded in memory
    whether or not the log file can be opened. *)
Lemma typed_adjust_frequency_survives_save_failure
    (env : Env) (turnover_data data : option TurnoverData)
    (avg_turnover avg_lifetime : Q) (self : AdaptiveScraper) :
  adjustment_threshold self <= scrape_count self ->
  effective_data env turnover_data = Some data ->
  extract_metrics data = Some (avg_turnover, avg_lifetime) ->
  let self' := adjust_frequency env turnover_data self in
  let h := adjustment_history self in
  let h' := adjustment_history self' in
  current_frequency self' <> current_frequency self ->
  (exists r, adjustments h' = adjustments h ++ [r]
             /\ old_frequency r = current_frequency self
             /\ new_frequency r = current_frequency self')
  /\ total_adjustments (stats h') = total_adjustments (stats h) + 1
  /\ last_adjustment_time self' = Some (now env)
  /\ (log_file_writable env = false ->
      last_updated (stats h') = last_updated (stats h))
  /\ (log_file_writable env = true -> last_updated (stats h') = now env).
Proof.
  intros Hn Hd Hm. cbv zeta.
  rewrite (adjust_frequency_eligible env turnover_data self data _ _ Hn Hd Hm).
  destruct (adjusted_effect env data avg_turnover avg_lifetime self)
    as (Hcur & [(Hsame & _)|(_ & Hlog & Ht & _ & _ & Hup)]).
  - rewrite Hcur. intros Hne. congruence.
  - intros _. rewrite Hcur, Hlog, Ht, Hup. split.
    + eexists. split; [reflexivity|]. split; reflexivity.
    + split; [reflexivity|]. split; [reflexivity|].
      split; intros ->; reflexivity.
Qed.

(** The typed object: what the appended record holds. *)
Lemma typed_recorded_adjustment_contents
    (env : Env) (turnover_data : option TurnoverData) (data : TurnoverData)
    (gcx_stats cardcash_stats : Stats) (self : AdaptiveScraper) :
  adjustment_threshold self <= scrape_count self ->
  effective_data env turnover_data = Some (Some data) ->
  source_stats "gcx_stats" data = Some gcx_stats ->
  source_stats "cardcash_stats" data = Some cardcash_stats ->
  let self' := adjust_frequency env turnover_data self in
  current_frequency self' <> current_frequency self ->
  exists r avg_turnover avg_lifetime,
    adjustments (adjustment_history self')
    = adjustments (adjustment_history self) ++ [r]
    /\ extract_metrics (Some data) = Some (avg_turnover, avg_lifetime)
    /\ timestamp r = now env
    /\ metrics_scrape_count (metrics r) = scrape_count self
    /\ Some (reason r) = fired_rule env turnover_data self
    /\ confidence r
       = decided_confidence (apply_rules self avg_turnover avg_lifetime)
    /\ gcx_turnover (metrics r) = get "turnover_rate" 0 gcx_stats
    /\ cardcash_turnover (metrics r) = get "turnover_rate" 0 cardcash_stats
    /\ (is_Some (gcx_stats !! "avg_lifetime_minutes") ->
        is_Some (cardcash_stats !! "avg_lifetime_minutes") ->
        avg_lifetime_minutes (metrics r) = avg_lifetime)
    /\ (gcx_stats !! "avg_lifetime_minutes" = None ->
        cardcash_stats !! "avg_lifetime_minutes" = None ->
        avg_lifetime_minutes (metrics r) = ((0 + 0) / 2)%Q
        /\ avg_lifetime = ((120 + 120) / 2)%Q).
Proof.
  intros Hn Hd Hg Hc. cbv zeta.
  assert (Hm : extract_metrics (Some data)
               = Some (((get "turnover_rate" 0 gcx_stats
                         + get "turnover_rate" 0 cardcash_stats) / 2)%Q,
                       ((get "avg_lifetime_minutes" 120 gcx_stats
                         + get "avg_lifetime_minutes" 120 cardcash_stats)
                        / 2)%Q)).
  { unfold extract_metrics. simpl. rewrite Hg, Hc. reflexivity. }
  rewrite (fired_rule_eligible env turnover_data self _ _ _ Hn Hd Hm).
  rewrite (adjust_frequency_eligible env turnover_data self _ _ _ Hn Hd Hm).
  match type of Hm with _ = Some (?t, ?l) =>
    destruct (adjusted_effect env (Some data) t l self)
      as (Hcur & [(Hsame & _)|(_ & Hlog & _)])
  end.
  - rewrite Hcur. intros Hne. congruence.
  - intros _. rewrite Hlog. eexists. eexists. eexists.
    split; [reflexivity|]. split; [exact Hm|].
    unfold source_metric. simpl. rewrite Hg, Hc. simpl.
    repeat split.
    + intros [x Hx] [y Hy]. unfold get. rewrite Hx, Hy. reflexivity.
    + unfold get. rewrite H, H0. reflexivity.
    + unfold get. rewrite H, H0. reflexivity.
Qed.


(* ================================================================== *)
(** * The scraping thread *)

Lemma scraping_pass_running (x : Pass) (p : Poller) :
  running (scraper (scraping_pass x p)) = running (scraper p).
Proof.
  unfold scraping_pass.
  destruct (running (scraper p)) eqn:Er; simpl; [|exact Er].
  destruct (process_deals_ok x); simpl; [|exact Er].
  destruct (_ && _); simpl; [|exact Er].
  destruct (adjust_frequency_frame (pass_env x) None
              (after_scrapes 1 (scraper p))) as (_ & _ & _ & _ & ->).
  exact Er.
Qed.

Lemma scraping_pass_count (x : Pass) (p : Poller) :
  running (scraper p) = true ->
  scrape_count (scraper (scraping_pass x p))
  = scrape_count (scraper p) + (if process_deals_ok x then 1 else 0)
  /\ length (scrape_history (scraping_pass x p))
     = (length (scrape_history p) + (if process_deals_ok x then 1 else 0))%nat.
Proof.
  intros Er. unfold scraping_pass. rewrite Er. simpl.
  destruct (process_deals_ok x); simpl; [|split; lia].
  rewrite length_app. simpl. split; [|lia].
  destruct (_ && _); simpl; [|reflexivity].
  destruct (adjust_frequency_frame (pass_env x) None
              (after_scrapes 1 (scraper p))) as (_ & _ & _ & -> & _).
  reflexivity.
Qed.

(** X11.  While the scraper is running, [scrape_count] and the length of
    [scrape_history] both grow by exactly the number of passes in which
    [process_deals] returned: failed passes are not counted, and an
    adjustment made during a pass does not disturb the count. *)
Theorem scraping_passes_count (xs : list Pass) (p : Poller) :
  running (scraper p) = true ->
  scrape_count (scraper (scraping_passes xs p))
  = scrape_count (scraper p) + Z.of_nat (completed xs)
  /\ length (scrape_history (scraping_passes xs p))
     = (length (scrape_history p) + completed xs)%nat.
Proof.
  unfold scraping_passes, completed. revert p.
  induction xs as [|x xs IH]; intros p Er; simpl.
  - split; lia.
  - destruct (scraping_pass_count x p Er) as [Hc Hl].
    destruct (IH (scraping_pass x p)) as [Hc' Hl'].
    { rewrite scraping_pass_running. exact Er. }
    rewrite Hc', Hl', Hc, Hl.
    destruct (process_deals_ok x); simpl length; split; lia.
Qed.

Lemma scraping_passes_count_witness :
  let p := scraping_passes (failed_pass :: seven_passes) fresh_poller in
  scrape_count (scraper p) = 7 /\ length (scrape_history p) = 7%nat.
Proof.
  apply (scraping_passes_count (failed_pass :: seven_passes) fresh_poller).
  reflexivity.
Defined.

Lemma scraping_pass_no_adjustment (x : Pass) (p : Poller) :
  running (scraper p) = true ->
  process_deals_ok x = true ->
  ~ (adjustment_threshold (scraper p) <= scrape_count (scraper p) + 1
     /\ (scrape_count (scraper p) + 1) mod 4 = 0) ->
  scraper (scraping_pass x p) = after_scrapes 1 (scraper p).
Proof.
  intros Er Hok Hno. unfold scraping_pass. rewrite Er, Hok. simpl.
  destruct (Z.leb_spec (adjustment_threshold (scraper p))
              (scrape_count (scraper p) + 1));
    destruct (Z.eqb_spec ((scrape_count (scraper p) + 1) mod 4) 0);
    simpl; try reflexivity.
  exfalso. apply Hno. split; assumption.
Qed.

(** The scraping thread taken alone: passes whose scrape numbers avoid the
    multiples of 4 at or beyond the threshold leave the interval alone. *)
Lemma scraping_passes_alone_leave_interval (xs : list Pass) (p : Poller) :
  running (scraper p) = true ->
  (forall n, scrape_count (scraper p) < n
             <= scrape_count (scraper p) + Z.of_nat (completed xs) ->
             ~ (adjustment_threshold (scraper p) <= n /\ n mod 4 = 0)) ->
  let self' := scraper (scraping_passes xs p) in
  current_frequency self' = current_frequency (scraper p)
  /\ adjustment_threshold self' = adjustment_threshold (scraper p)
  /\ adjustment_history self' = adjustment_history (scraper p)
  /\ last_adjustment_time self' = last_adjustment_time (scraper p).
Proof.
  cbv zeta. unfold scraping_passes, completed. revert p.
  induction xs as [|x xs IH]; intros p Er Hno; simpl.
  - repeat split; reflexivity.
  - destruct (process_deals_ok x) eqn:Hok.
    + assert (Hstep : scraper (scraping_pass x p) = after_scrapes 1 (scraper p)).
      { apply scraping_pass_no_adjustment; [exact Er|exact Hok|].
        apply Hno. simpl. rewrite Hok. simpl length. lia. }
      destruct (IH (scraping_pass x p)) as (H1 & H2 & H3 & H4).
      { rewrite scraping_pass_running. exact Er. }
      { rewrite Hstep. simpl. intros n Hn. apply Hno.
        simpl. rewrite Hok. simpl length. lia. }
      rewrite H1, H2, H3, H4, Hstep. repeat split; reflexivity.
    + assert (Hstep : scraping_pass x p = p).
      { unfold scraping_pass. rewrite Er, Hok. reflexivity. }
      rewrite Hstep. apply IH; [exact Er|].
      intros n Hn. apply Hno. simpl. rewrite Hok. exact Hn.
Qed.

(** ** The status report *)

Lemma last_five_length {A : Type} (l : list A) :
  length (last_five l) = Nat.min 5 (length l).
Proof. unfold last_five. rewrite List.length_skipn. lia. Qed.

Lemma last_five_suffix {A : Type} (l : list A) :
  l = firstn (length l - 5) l ++ last_five l.
Proof. unfold last_five. symmetry. apply List.firstn_skipn. Qed.

Lemma last_five_snoc {A : Type} (l : list A) (x : A) :
  List.last (last_five (l ++ [x])) x = x.
Proof.
  unfold last_five. rewrite length_app. simpl.
  rewrite List.skipn_app.
  replace (length l + 1 - 5 - length l)%nat with 0%nat by lia.
  simpl. apply List.last_last.
Qed.

(** X13.  [get_status] reports the most recent scrapes only: at most five,
    exactly five once five scrapes are on record, and always the tail of
    [scrape_history] in its order. *)
Theorem get_status_latest_scrapes (p : Poller) :
  let recent := latest_scrapes (get_status p) in
  length recent = Nat.min 5 (length (scrape_history p))
  /\ scrape_history p
     = firstn (length (scrape_history p) - 5) (scrape_history p) ++ recent.
Proof.
  cbv zeta. unfold get_status. simpl.
  destruct (scrape_history p) as [|e h] eqn:E; [split; reflexivity|].
  rewrite <- E. split; [apply last_five_length|apply last_five_suffix].
Qed.

(** X14.  After a pass in which [process_deals] returned, the newest entry
    of the status report is the scrape just made, and the interval it
    records is the one in force when the scrape ran, not the one an
    adjustment in the same pass may have set. *)
Theorem get_status_after_pass (x : Pass) (p : Poller) :
  running (scraper p) = true ->
  process_deals_ok x = true ->
  let recent := latest_scrapes (get_status (scraping_pass x p)) in
  let event :=
    mkScrapeEvent (start_time x) (pass_duration x)
      (current_frequency (scraper p)) in
  List.last recent event = event /\ recent <> [].
Proof.
  intros Er Hok. cbv zeta. unfold get_status, scraping_pass.
  rewrite Er, Hok. simpl.
  destruct (scrape_history p ++ _) as [|e h] eqn:E.
  - destruct (scrape_history p); discriminate.
  - rewrite <- E. split.
    + apply (last_five_snoc (scrape_history p)).
    + intros Hnil. apply (f_equal (@length ScrapeEvent)) in Hnil.
      rewrite last_five_length, length_app in Hnil. simpl length in Hnil. lia.
Qed.

Lemma get_status_after_pass_witness :
  let p := scraping_passes seven_passes fresh_poller in
  let status := get_status (scraping_pass (busy_pass 800) p) in
  List.last (latest_scrapes status) (mkScrapeEvent 800 3 60)
  = mkScrapeEvent 800 3 60
  /\ current_frequency_minutes status = 15.
Proof.
  split.
  - apply (get_status_after_pass (busy_pass 800)
             (scraping_passes seven_passes fresh_poller)); reflexivity.
  - reflexivity.
Defined.

(* ================================================================== *)
(** * Building the timelines in [analyze_session] *)

Lemma record_presence_lookup (k h : string) (n : Z) (timeline : Timeline) :
  record_presence k n timeline !! h
  = if decide (k = h) then Some (default [] (timeline !! h) ++ [n])
    else timeline !! h.
Proof.
  unfold record_presence. destruct (decide (k = h)) as [->|Hne].
  - apply lookup_insert_eq.
  - apply lookup_insert_ne. exact Hne.
Qed.

Lemma record_item_gcx (n : Z) (acc : Timelines) (item : option Deal)
      (h : string) :
  default [] (gcx_deals_timeline (record_item n acc item) !! h)
  = default [] (gcx_deals_timeline acc !! h) ++ item_listing "raise" h n item.
Proof.
  destruct item as [deal|]; [|simpl; rewrite app_nil_r; reflexivity].
  unfold record_item, item_listing.
  destruct (String.eqb_spec (deal_source deal) "raise") as [Hr|Hr]; simpl.
  - rewrite record_presence_lookup.
    destruct (decide (deal_hash deal = h)) as [E|E].
    + rewrite (proj2 (String.eqb_eq _ _) E). reflexivity.
    + rewrite (proj2 (String.eqb_neq _ _) E). simpl.
      rewrite app_nil_r. reflexivity.
  - destruct (String.eqb (deal_source deal) "cardcash"); simpl;
      rewrite app_nil_r; reflexivity.
Qed.

Lemma record_item_cardcash (n : Z) (acc : Timelines) (item : option Deal)
      (h : string) :
  default [] (cardcash_deals_timeline (record_item n acc item) !! h)
  = default [] (cardcash_deals_timeline acc !! h)
    ++ item_listing "cardcash" h n item.
Proof.
  destruct item as [deal|]; [|simpl; rewrite app_nil_r; reflexivity].
  unfold record_item, item_listing.
  destruct (String.eqb_spec (deal_source deal) "raise") as [Hr|Hr]; simpl.
  - rewrite Hr. simpl. rewrite app_nil_r. reflexivity.
  - destruct (String.eqb_spec (deal_source deal) "cardcash") as [Hc|Hc]; simpl.
    + rewrite record_presence_lookup.
      destruct (decide (deal_hash deal = h)) as [E|E].
      * rewrite (proj2 (String.eqb_eq _ _) E). reflexivity.
      * rewrite (proj2 (String.eqb_neq _ _) E). simpl.
        rewrite app_nil_r. reflexivity.
    + rewrite app_nil_r. reflexivity.
Qed.

Lemma record_presence_no_empty (k : string) (n : Z) (timeline : Timeline) :
  no_empty_entry timeline -> no_empty_entry (record_presence k n timeline).
Proof.
  intros Hne h. rewrite record_presence_lookup.
  destruct (decide (k = h)); [|apply Hne].
  intros [= E]. destruct (default [] (timeline !! h)); discriminate.
Qed.

Lemma record_item_no_empty (n : Z) (acc : Timelines) (item : option Deal) :
  no_empty_entry (gcx_deals_timeline acc)
  /\ no_empty_entry (cardcash_deals_timeline acc) ->
  no_empty_entry (gcx_deals_timeline (record_item n acc item))
  /\ no_empty_entry (cardcash_deals_timeline (record_item n acc item)).
Proof.
  intros [Hg Hc]. destruct item as [deal|]; [|split; assumption].
  unfold record_item.
  destruct (String.eqb (deal_source deal) "raise"); simpl.
  - split; [apply record_presence_no_empty|]; assumption.
  - destruct (String.eqb (deal_source deal) "cardcash"); simpl;
      split; try assumption.
    apply record_presence_no_empty. assumption.
Qed.

Section Folding.
Variable h : string.

Let gcx_view (acc : Timelines) := default [] (gcx_deals_timeline acc !! h).
Let cardcash_view (acc : Timelines) :=
  default [] (cardcash_deals_timeline acc !! h).
Let sound (acc : Timelines) :=
  no_empty_entry (gcx_deals_timeline acc)
  /\ no_empty_entry (cardcash_deals_timeline acc).

Lemma record_items_view (n : Z) (items : list (option Deal)) (acc : Timelines) :
  sound acc ->
  let acc' := foldl (record_item n) acc items in
  gcx_view acc' = gcx_view acc ++ flat_map (item_listing "raise" h n) items
  /\ cardcash_view acc'
     = cardcash_view acc ++ flat_map (item_listing "cardcash" h n) items
  /\ sound acc'.
Proof.
  revert acc. induction items as [|item items IH]; intros acc Hs; simpl.
  - rewrite !app_nil_r. repeat split; try reflexivity; apply Hs.
  - destruct (IH (record_item n acc item)) as (Hg & Hc & Hs').
    { apply record_item_no_empty. exact Hs. }
    split; [|split; [|exact Hs']].
    + rewrite Hg. unfold gcx_view. rewrite record_item_gcx.
      rewrite <- app_assoc. reflexivity.
    + rewrite Hc. unfold cardcash_view. rewrite record_item_cardcash.
      rewrite <- app_assoc. reflexivity.
Qed.

Lemma record_snapshots_view (snapshots : list Snapshot) (acc : Timelines) :
  sound acc ->
  let acc' := foldl record_snapshot acc snapshots in
  gcx_view acc' = gcx_view acc ++ presences "raise" h snapshots
  /\ cardcash_view acc' = cardcash_view acc ++ presences "cardcash" h snapshots
  /\ sound acc'.
Proof.
  revert acc. induction snapshots as [|s snapshots IH]; intros acc Hs; simpl.
  - rewrite !app_nil_r. repeat split; try reflexivity; apply Hs.
  - destruct (record_items_view (check_number s) (snapshot_items s) acc Hs)
      as (Hg0 & Hc0 & Hs0).
    destruct (IH (record_snapshot acc s) Hs0) as (Hg & Hc & Hs').
    split; [|split; [|exact Hs']].
    + rewrite Hg. unfold record_snapshot. rewrite Hg0.
      rewrite <- app_assoc. reflexivity.
    + rewrite Hc. unfold record_snapshot. rewrite Hc0.
      rewrite <- app_assoc. reflexivity.
Qed.
End Folding.

Lemma entry_of_view (o : option (list Z)) :
  o <> Some [] -> o = entry_of (default [] o).
Proof. destruct o as [[|x l]|]; simpl; congruence. Qed.

(** The entries of the two timelines. *)
Lemma build_timelines_entries (snapshots : list Snapshot) (h : string) :
  let timelines := build_timelines snapshots in
  gcx_deals_timeline timelines !! h = entry_of (presences "raise" h snapshots)
  /\ cardcash_deals_timeline timelines !! h
     = entry_of (presences "cardcash" h snapshots)
  /\ gcx_deals_timeline timelines !! h <> Some []
  /\ cardcash_deals_timeline timelines !! h <> Some [].
Proof.
  cbv zeta. unfold build_timelines.
  destruct (record_snapshots_view h snapshots (mkTimelines ∅ ∅))
    as (Hg & Hc & Hsg & Hsc).
  { split; intros k; simpl; rewrite lookup_empty; discriminate. }
  simpl in Hg, Hc. rewrite lookup_empty in Hg, Hc. simpl in Hg, Hc.
  rewrite <- Hg, <- Hc.
  repeat split; try apply entry_of_view; auto.
Qed.

(** X15.  The timeline [analyze_session] builds for a source holds, for
    each fingerprint, exactly the check numbers of the snapshots that list
    it under that source, in snapshot order and once per listing; a
    fingerprint never listed has no entry, so no entry is an empty list;
    deals of any other source are in neither timeline. *)
Theorem build_timelines_lookup (snapshots : list Snapshot) (h : string) :
  let timelines := build_timelines snapshots in
  gcx_deals_timeline timelines !! h = entry_of (presences "raise" h snapshots)
  /\ cardcash_deals_timeline timelines !! h
     = entry_of (presences "cardcash" h snapshots)
  /\ gcx_deals_timeline timelines !! h <> Some []
  /\ cardcash_deals_timeline timelines !! h <> Some [].
Proof.
  intros timelines. subst timelines.
  apply (build_timelines_entries snapshots h).
Qed.

(** ** Timelines of well-numbered sessions *)

Lemma strictly_increasing_above (x : Z) (l : list Z) :
  strictly_increasing (x :: l) = true -> Forall (fun y => x < y) l.
Proof.
  revert x. induction l as [|y l IH]; intros x H; [constructor|].
  cbn [strictly_increasing] in H. apply andb_true_iff in H as [Hxy Hl].
  apply Z.ltb_lt in Hxy. constructor; [exact Hxy|].
  eapply Forall_impl; [apply IH; exact Hl|].
  intros z Hz. simpl in Hz. lia.
Qed.

Lemma strictly_increasing_cons (x : Z) (l : list Z) :
  strictly_increasing l = true -> Forall (fun y => x < y) l ->
  strictly_increasing (x :: l) = true.
Proof.
  intros Hl Hall. destruct l as [|y l]; [reflexivity|].
  cbn [strictly_increasing]. apply andb_true_iff. split; [|exact Hl].
  apply Z.ltb_lt. apply Forall_cons_1 in Hall. tauto.
Qed.

Lemma listings_check_number (source h : string) (s : Snapshot) :
  Forall (fun n => n = check_number s) (listings source h s).
Proof.
  unfold listings. induction (snapshot_items s) as [|item items IH]; simpl;
    [constructor|].
  apply Forall_app. split; [|exact IH].
  destruct item as [deal|]; simpl; [|constructor].
  destruct (_ && _); repeat constructor.
Qed.

Lemma presences_check_numbers (source h : string) (snapshots : list Snapshot) :
  Forall (fun n => In n (map check_number snapshots))
         (presences source h snapshots).
Proof.
  unfold presences. induction snapshots as [|s snapshots IH]; simpl;
    [constructor|].
  apply Forall_app. split.
  - eapply Forall_impl; [apply listings_check_number|].
    intros n ->. left. reflexivity.
  - eapply Forall_impl; [exact IH|]. intros n Hn. right. exact Hn.
Qed.

Lemma presences_strictly_increasing (source h : string)
      (snapshots : list Snapshot) :
  strictly_increasing (map check_number snapshots) = true ->
  Forall (fun s => (length (listings source h s) <= 1)%nat) snapshots ->
  strictly_increasing (presences source h snapshots) = true.
Proof.
  induction snapshots as [|s snapshots IH]; intros Hinc Honce; [reflexivity|].
  apply Forall_cons_1 in Honce as [Hs Honce].
  change (presences source h (s :: snapshots))
    with (listings source h s ++ presences source h snapshots).
  simpl map in Hinc.
  pose proof (strictly_increasing_above _ _ Hinc) as Habove.
  specialize (IH (strictly_increasing_tail _ _ Hinc) Honce).
  pose proof (listings_check_number source h s) as Hcn.
  destruct (listings source h s) as [|n [|n' l]]; simpl in *; [exact IH| |lia].
  apply Forall_cons_1 in Hcn as [-> _].
  apply strictly_increasing_cons; [exact IH|].
  eapply Forall_impl; [apply presences_check_numbers|].
  intros m Hm. simpl in Hm.
  rewrite List.Forall_forall in Habove. apply Habove. exact Hm.
Qed.

(** X16.  When the snapshots of a session carry strictly increasing check
    numbers and none lists a fingerprint twice under one source, every
    observation list of the timelines is strictly increasing. *)
Theorem build_timelines_strictly_increasing
    (snapshots : list Snapshot) (h : string) (l : list Z) :
  strictly_increasing (map check_number snapshots) = true ->
  Forall (fun s => (length (listings "raise" h s) <= 1)%nat
                   /\ (length (listings "cardcash" h s) <= 1)%nat)
         snapshots ->
  gcx_deals_timeline (build_timelines snapshots) !! h = Some l
  \/ cardcash_deals_timeline (build_timelines snapshots) !! h = Some l ->
  strictly_increasing l = true.
Proof.
  intros Hinc Honce Hl.
  destruct (build_timelines_entries snapshots h) as (Hg & Hc & _ & _).
  assert (Hp : l = presences "raise" h snapshots
               \/ l = presences "cardcash" h snapshots).
  { destruct Hl as [Hl|Hl]; [left; rewrite Hg in Hl|right; rewrite Hc in Hl];
      unfold entry_of in Hl;
      destruct (presences _ h snapshots); congruence. }
  destruct Hp as [-> | ->]; apply presences_strictly_increasing;
    try exact Hinc;
    (eapply Forall_impl; [exact Honce|]); intros s [H1 H2]; assumption.
Qed.

Lemma build_timelines_strictly_increasing_witness :
  strictly_increasing [1; 2] = true.
Proof.
  apply (build_timelines_strictly_increasing sample_session "B" [1; 2]).
  - reflexivity.
  - repeat constructor.
  - left. reflexivity.
Defined.

(** ** Items still present at the end *)

Lemma sort_insert_In (a : Z) (s : list Z) (y : Z) :
  In y (sort_insert a s) <-> y = a \/ In y s.
Proof.
  induction s as [|y0 s IH]; simpl; [intuition congruence|].
  destruct (a <=? y0); simpl; [intuition congruence|].
  rewrite IH. intuition congruence.
Qed.

Lemma sort_In (l : list Z) (y : Z) : In y (sort l) <-> In y l.
Proof.
  induction l as [|x l IH]; simpl; [tauto|].
  rewrite sort_insert_In, IH. intuition congruence.
Qed.

Lemma sort_insert_nonempty (a : Z) (s : list Z) : sort_insert a s <> [].
Proof. destruct s as [|y s]; simpl; [|destruct (a <=? y)]; discriminate. Qed.

Lemma last_cons_nonempty (y : Z) (t : list Z) :
  t <> [] -> List.last (y :: t) 0 = List.last t 0.
Proof. destruct t; [congruence|reflexivity]. Qed.

Lemma sort_insert_last_is_max (a : Z) (s : list Z) :
  last_is_max s -> last_is_max (sort_insert a s).
Proof.
  induction s as [|y0 s IH]; intros Hs; simpl.
  - intros y [<-|[]]. simpl. lia.
  - destruct (Z.leb_spec a y0) as [Hle|Hlt].
    + intros y [<-|Hy].
      * specialize (Hs y0 (or_introl eq_refl)).
        change (List.last (a :: y0 :: s) 0) with (List.last (y0 :: s) 0). lia.
      * change (List.last (a :: y0 :: s) 0) with (List.last (y0 :: s) 0).
        apply Hs. exact Hy.
    + assert (Hs' : last_is_max s).
      { destruct s as [|y1 s]; [intros y []|].
        intros y Hy. specialize (Hs y (or_intror Hy)).
        rewrite last_cons_nonempty in Hs by discriminate. exact Hs. }
      specialize (IH Hs').
      intros y Hy.
      rewrite last_cons_nonempty by apply sort_insert_nonempty.
      destruct Hy as [<-|Hy]; [|apply IH; exact Hy].
      assert (Ha : a <= List.last (sort_insert a s) 0).
      { apply IH. apply sort_insert_In. left. reflexivity. }
      lia.
Qed.

Lemma sort_last_is_max (l : list Z) : last_is_max (sort l).
Proof.
  induction l as [|x l IH]; simpl; [intros y []|].
  apply sort_insert_last_is_max. exact IH.
Qed.

Lemma sort_last_upper (l : list Z) (x : Z) :
  In x l -> x <= List.last (sort l) 0.
Proof. intros H. apply sort_last_is_max. apply sort_In. exact H. Qed.

(** No item counts as disappeared when each was seen at the end. *)
Lemma stats_none_disappeared
    (deal_timeline : Timeline) (num_snapshots : Z) (interval_minutes : Q) :
  size deal_timeline <> 0%nat ->
  map_Forall (fun _ appearances =>
                (2 <= length appearances)%nat ->
                exists x, In x appearances /\ num_snapshots <= x)
             deal_timeline ->
  let result :=
    _calculate_turnover_stats deal_timeline num_snapshots interval_minutes in
  result !! "disappeared_deals" = Some (inject_Z 0)
  /\ (get "turnover_rate" 0 result == 0)%Q.
Proof.
  intros Hne Hall. cbv zeta.
  assert (Hnone : List.filter (counted num_snapshots) (map_to_list deal_timeline)
                  = []).
  { apply map_Forall_to_list in Hall.
    induction Hall as [|[k l] items Hkl _ IH]; [reflexivity|].
    cbn [List.filter]. rewrite IH. simpl in Hkl.
    assert (Hnot : counted num_snapshots (k, l) = false); [|rewrite Hnot; reflexivity].
    unfold counted, seen_twice, last_before. cbn [snd].
    destruct (Nat.leb_spec 2 (length l)) as [H2|H2]; [|reflexivity].
    destruct (Hkl H2) as (x & Hx & Hn).
    pose proof (sort_last_upper l x Hx) as Hup.
    cbn [andb]. apply Z.ltb_ge. lia. }
  split.
  - rewrite stats_disappeared_counted by exact Hne. rewrite Hnone. reflexivity.
  - unfold get. rewrite stats_turnover_rate by exact Hne.
    rewrite run_loop_disappeared, Hnone. simpl.
    unfold Qdiv. rewrite Qmult_0_l. reflexivity.
Qed.

(** X17.  When every item with two or more observations has one at or
    after [num_snapshots], whatever the order of its observations, the
    statistics report no disappeared deal and a turnover rate of 0. *)
Theorem present_at_end_never_disappeared
    (deal_timeline : Timeline) (num_snapshots : Z) (interval_minutes : Q) :
  size deal_timeline <> 0%nat ->
  map_Forall (fun _ appearances =>
                (2 <= length appearances)%nat ->
                exists x, In x appearances /\ num_snapshots <= x)
             deal_timeline ->
  let result :=
    _calculate_turnover_stats deal_timeline num_snapshots interval_minutes in
  result !! "disappeared_deals" = Some (inject_Z 0)
  /\ (get "turnover_rate" 0 result == 0)%Q.
Proof.
  intros Hne Hall result. subst result.
  apply (stats_none_disappeared deal_timeline num_snapshots interval_minutes);
    assumption.
Qed.

Lemma present_at_end_never_disappeared_witness :
  _calculate_turnover_stats session_all_stay 3 10 !! "disappeared_deals"
  = Some (inject_Z 0).
Proof.
  apply (present_at_end_never_disappeared session_all_stay 3 10).
  - vm_compute. discriminate.
  - unfold session_all_stay. apply map_Forall_insert_2.
    + intros _. exists 3. simpl. split; [tauto|lia].
    + apply map_Forall_singleton. intros _. exists 3. simpl. split; [tauto|lia].
Defined.

(** ** [analyze_session] on a session nothing leaves *)

Lemma presences_app (source h : string) (xs ys : list Snapshot) :
  presences source h (xs ++ ys)
  = presences source h xs ++ presences source h ys.
Proof. unfold presences. apply List.flat_map_app. Qed.

Lemma listed_in_final (source h : string) (earlier : list Snapshot)
      (final : Snapshot) :
  listings source h final <> [] ->
  In (check_number final) (presences source h (earlier ++ [final])).
Proof.
  intros Hne. rewrite presences_app. apply in_or_app. right.
  unfold presences. simpl. rewrite app_nil_r.
  pose proof (listings_check_number source h final) as Hcn.
  destruct (listings source h final) as [|n l]; [congruence|].
  apply Forall_cons_1 in Hcn as [-> _]. left. reflexivity.
Qed.

Lemma stats_all_present (source : string) (timeline : Timeline)
      (earlier : list Snapshot) (final : Snapshot) (interval_minutes : Q) :
  (forall h, timeline !! h = entry_of (presences source h (earlier ++ [final]))) ->
  Z.of_nat (length (earlier ++ [final])) <= check_number final ->
  (forall h, presences source h (earlier ++ [final]) <> [] ->
             listings source h final <> []) ->
  let result :=
    _calculate_turnover_stats timeline (Z.of_nat (length (earlier ++ [final])))
      interval_minutes in
  (get "disappeared_deals" 0 result == 0)%Q
  /\ (get "turnover_rate" 0 result == 0)%Q.
Proof.
  intros Hlook Hnum Hstay. cbv zeta.
  destruct (decide (size timeline = 0%nat)) as [E|E].
  { rewrite (stats_no_items _ _ interval_minutes E). split; reflexivity. }
  destruct (stats_none_disappeared timeline
              (Z.of_nat (length (earlier ++ [final]))) interval_minutes E)
    as [Hd Ht].
  - intros h l Hl _. exists (check_number final). split; [|exact Hnum].
    rewrite Hlook in Hl.
    destruct (presences source h (earlier ++ [final])) as [|n ns] eqn:Ep;
      [discriminate|].
    simpl in Hl. injection Hl as <-. rewrite <- Ep.
    apply listed_in_final. apply Hstay. rewrite Ep. discriminate.
  - split; [|exact Ht]. unfold get. rewrite Hd. reflexivity.
Qed.

(** X18.  For a session whose last snapshot carries a check number at least
    the number of snapshots, and lists every deal that any snapshot of the
    session lists, [analyze_session] reports no disappeared deal and a
    turnover rate of 0 for both sources. *)
Theorem analyze_session_nothing_leaves
    (interval_minutes : Q) (earlier : list Snapshot) (final : Snapshot) :
  let snapshots := earlier ++ [final] in
  Z.of_nat (length snapshots) <= check_number final ->
  (forall source h, presences source h snapshots <> [] ->
                    listings source h final <> []) ->
  exists gcx_stats cardcash_stats,
    analyze_session_stats (Some interval_minutes) snapshots
    = Some (gcx_stats, cardcash_stats)
    /\ (get "disappeared_deals" 0 gcx_stats == 0)%Q
    /\ (get "turnover_rate" 0 gcx_stats == 0)%Q
    /\ (get "disappeared_deals" 0 cardcash_stats == 0)%Q
    /\ (get "turnover_rate" 0 cardcash_stats == 0)%Q.
Proof.
  intros snapshots Hnum Hstay. subst snapshots.
  unfold analyze_session_stats.
  destruct (earlier ++ [final]) as [|s0 rest] eqn:E.
  { destruct earlier; discriminate. }
  rewrite <- E in *. eexists. eexists. split; [reflexivity|].
  destruct (stats_all_present "raise"
              (gcx_deals_timeline (build_timelines (earlier ++ [final])))
              earlier final interval_minutes) as [Hgd Hgt];
    [intros h; apply build_timelines_entries|exact Hnum|apply Hstay|].
  destruct (stats_all_present "cardcash"
              (cardcash_deals_timeline (build_timelines (earlier ++ [final])))
              earlier final interval_minutes) as [Hcd Hct];
    [intros h; apply build_timelines_entries|exact Hnum|apply Hstay|].
  repeat split; assumption.
Qed.

Lemma analyze_session_nothing_leaves_witness :
  exists gcx_stats cardcash_stats,
    analyze_session_stats (Some 10%Q) (steady_earlier ++ [steady_final])
    = Some (gcx_stats, cardcash_stats)
    /\ (get "disappeared_deals" 0 gcx_stats == 0)%Q
    /\ (get "turnover_rate" 0 gcx_stats == 0)%Q
    /\ (get "disappeared_deals" 0 cardcash_stats == 0)%Q
    /\ (get "turnover_rate" 0 cardcash_stats == 0)%Q.
Proof.
  apply (analyze_session_nothing_leaves 10%Q steady_earlier steady_final).
  - simpl. lia.
  - intros source h.
    unfold presences, listings, steady_earlier, steady_final, item_listing.
    cbn [flat_map app snapshot_items check_number deal_source deal_hash].
    destruct (String.eqb "raise" source), (String.eqb "cardcash" source),
             (String.eqb "A" h), (String.eqb "C" h);
      cbn [andb app]; intros H; try discriminate; exact H.
Defined.

(* ================================================================== *)
(** * The recommendation *)

(** Decide the comparisons of the recommendation tables. *)
Ltac lifetime_cases :=
  repeat match goal with
    | |- context [Qltb ?a ?b] =>
        let E := fresh "E" in
        destruct (Qltb a b) eqn:E;
        [apply Qltb_true in E | apply Qltb_false in E]
    end.

Lemma lifetime_of_reported (stats : Stats) (minutes : Q) :
  stats !! "avg_lifetime_minutes" = Some minutes ->
  lifetime_of stats = Finite minutes.
Proof. intros H. unfold lifetime_of. rewrite H. reflexivity. Qed.

(** X19.  When both sources report an average lifetime, the overall
    recommendation follows the shorter one: 30 minutes as soon as one
    lifetime is below 60, 120 minutes only when both are at least 120, and
    60 minutes in between; the 'minutes' entry agrees with the wording of
    the recommendation, and the confidence is "high". *)
Theorem recommendation_follows_shorter_lifetime
    (gcx_stats cardcash_stats : Stats) (g c : Q) :
  gcx_stats !! "avg_lifetime_minutes" = Some g ->
  cardcash_stats !! "avg_lifetime_minutes" = Some c ->
  let r := recommend_scraping_frequency gcx_stats cardcash_stats in
  ((g < 60 \/ c < 60)%Q ->
   rec_minutes r = 30 /\ rec_recommendation r = "Every 30 minutes")
  /\ ((60 <= g)%Q -> (60 <= c)%Q -> (g < 120 \/ c < 120)%Q ->
      rec_minutes r = 60 /\ rec_recommendation r = "Every 1 hour")
  /\ ((120 <= g)%Q -> (120 <= c)%Q ->
      rec_minutes r = 120 /\ rec_recommendation r = "Every 2 hours")
  /\ rec_confidence r = "high".
Proof.
  intros Hg Hc. cbv zeta. unfold recommend_scraping_frequency.
  rewrite (lifetime_of_reported _ _ Hg), (lifetime_of_reported _ _ Hc).
  unfold py_min, below, lifetime_ltb.
  repeat split; intros; lifetime_cases; try reflexivity; exfalso;
    try lra; intuition lra.
Qed.

Lemma recommendation_follows_shorter_lifetime_witness :
  rec_minutes
    (recommend_scraping_frequency (stats_of (3 / 5) 200) (stats_of (1 / 5) 45))
  = 30.
Proof.
  apply (recommendation_follows_shorter_lifetime
           (stats_of (3 / 5) 200) (stats_of (1 / 5) 45) 200 45).
  - reflexivity.
  - reflexivity.
  - right. reflexivity.
Defined.

(** X20.  A source without an average lifetime does not hold the
    recommendation back: it follows the other source alone, and when
    neither reports a lifetime the recommendation is "Every 2 hours", 120
    minutes, with confidence "low"; the confidence is "low" in no other
    case. *)
Theorem recommendation_without_lifetime (gcx_stats cardcash_stats : Stats) :
  let r := recommend_scraping_frequency gcx_stats cardcash_stats in
  (rec_confidence r = "low"
   <-> gcx_stats !! "avg_lifetime_minutes" = None
       /\ cardcash_stats !! "avg_lifetime_minutes" = None)
  /\ (rec_confidence r = "low" ->
      rec_minutes r = 120 /\ rec_recommendation r = "Every 2 hours")
  /\ (gcx_stats !! "avg_lifetime_minutes" = None ->
      rec_minutes r
      = rec_minutes (recommend_scraping_frequency cardcash_stats cardcash_stats))
  /\ (cardcash_stats !! "avg_lifetime_minutes" = None ->
      rec_minutes r
      = rec_minutes (recommend_scraping_frequency gcx_stats gcx_stats)).
Proof.
  cbv zeta. unfold recommend_scraping_frequency, lifetime_of.
  destruct (gcx_stats !! "avg_lifetime_minutes") as [g|],
           (cardcash_stats !! "avg_lifetime_minutes") as [c|];
    unfold py_min, below, lifetime_ltb;
    cbn [rec_confidence rec_minutes rec_recommendation].
  - destruct (Qltb c g);
      (split; [split; [discriminate|intros [? ?]; discriminate]|]);
      (split; [discriminate|]); split; discriminate.
  - split; [split; [discriminate|intros [? ?]; discriminate]|].
    split; [discriminate|]. split; [discriminate|].
    intros _. destruct (Qltb g g); reflexivity.
  - split; [split; [discriminate|intros [? ?]; discriminate]|].
    split; [discriminate|]. split; [|discriminate].
    intros _. destruct (Qltb c c); reflexivity.
  - split; [split; [intros _; split; reflexivity|reflexivity]|].
    split; [intros _; split; reflexivity|].
    split; intros _; reflexivity.
Qed.

Lemma recommendation_without_lifetime_witness :
  let r := recommend_scraping_frequency (_calculate_turnover_stats ∅ 3 10)
             (_calculate_turnover_stats ∅ 3 10) in
  rec_minutes r = 120 /\ rec_recommendation r = "Every 2 hours".
Proof.
  apply (recommendation_without_lifetime (_calculate_turnover_stats ∅ 3 10)
           (_calculate_turnover_stats ∅ 3 10)).
  reflexivity.
Defined.

(** The 'minutes' entry in terms of the smaller lifetime. *)
Lemma rec_minutes_by_min_lifetime (gcx_stats cardcash_stats : Stats) :
  rec_minutes (recommend_scraping_frequency gcx_stats cardcash_stats)
  = let m := py_min (lifetime_of gcx_stats) (lifetime_of cardcash_stats) in
    if below m 60 then 30 else if below m 120 then 60 else 120.
Proof.
  unfold recommend_scraping_frequency. cbn [rec_minutes]. cbv zeta.
  destruct (below _ 60); [reflexivity|].
  destruct (below _ 120); reflexivity.
Qed.

Lemma get_recommendation_no_data (stats : Stats) (name : string) (g : Q) :
  stats !! "avg_lifetime_minutes" = Some g -> (g == 0)%Q ->
  get_recommendation stats name = name +:+ ": No data available".
Proof.
  intros Hg Hz. unfold get_recommendation, get. rewrite Hg. simpl.
  rewrite (proj2 (Qeq_bool_iff g 0) Hz). reflexivity.
Qed.

Lemma zero_lifetime_minutes (gcx_stats cardcash_stats : Stats) (g : Q) :
  (g == 0)%Q ->
  gcx_stats !! "avg_lifetime_minutes" = Some g
  \/ cardcash_stats !! "avg_lifetime_minutes" = Some g ->
  let r := recommend_scraping_frequency gcx_stats cardcash_stats in
  rec_minutes r = 30 /\ rec_confidence r = "high".
Proof.
  intros Hz Hsrc. cbv zeta. rewrite rec_minutes_by_min_lifetime.
  unfold recommend_scraping_frequency. cbn [rec_confidence]. cbv zeta.
  unfold lifetime_of.
  destruct Hsrc as [Hg|Hc]; [rewrite Hg|rewrite Hc].
  - destruct (cardcash_stats !! "avg_lifetime_minutes") as [c|];
      unfold py_min, below, lifetime_ltb;
      lifetime_cases; split; try reflexivity; exfalso; lra.
  - destruct (gcx_stats !! "avg_lifetime_minutes") as [c|];
      unfold py_min, below, lifetime_ltb;
      lifetime_cases; split; try reflexivity; exfalso; lra.
Qed.

(** X21.  A source whose statistics report an average lifetime of 0 (what
    the analyzer reports when no item was seen twice) gets the message
    "No data available", and yet it decides the overall recommendation:
    30 minutes, with confidence "high", whatever the other source
    reports. *)
Theorem zero_lifetime_recommends_30_minutes
    (gcx_stats cardcash_stats : Stats) (g : Q) :
  (g == 0)%Q ->
  let r := recommend_scraping_frequency gcx_stats cardcash_stats in
  (gcx_stats !! "avg_lifetime_minutes" = Some g ->
   gcx_recommendation r = "GCX: No data available"
   /\ rec_minutes r = 30 /\ rec_confidence r = "high")
  /\ (cardcash_stats !! "avg_lifetime_minutes" = Some g ->
      cardcash_recommendation r = "CardCash: No data available"
      /\ rec_minutes r = 30 /\ rec_confidence r = "high").
Proof.
  intros Hz r. split; intros Hsrc.
  - split; [apply (get_recommendation_no_data gcx_stats "GCX" g Hsrc Hz)|].
    apply (zero_lifetime_minutes gcx_stats cardcash_stats g Hz).
    left. exact Hsrc.
  - split.
    + apply (get_recommendation_no_data cardcash_stats "CardCash" g Hsrc Hz).
    + apply (zero_lifetime_minutes gcx_stats cardcash_stats g Hz).
      right. exact Hsrc.
Qed.

Lemma zero_lifetime_recommends_30_minutes_witness :
  let r :=
    recommend_scraping_frequency
      (_calculate_turnover_stats session_seen_once 3 10) (stats_of (1 / 10) 500) in
  gcx_recommendation r = "GCX: No data available"
  /\ rec_minutes r = 30 /\ rec_confidence r = "high".
Proof.
  apply (zero_lifetime_recommends_30_minutes
           (_calculate_turnover_stats session_seen_once 3 10)
           (stats_of (1 / 10) 500) 0).
  - reflexivity.
  - reflexivity.
Defined.

(** X22.  The recommended interval is monotone in the reported lifetimes:
    when neither source's average lifetime goes down, the 'minutes' entry
    does not go down. *)
Theorem recommendation_monotone
    (gcx_stats cardcash_stats gcx_stats' cardcash_stats' : Stats)
    (g c g' c' : Q) :
  gcx_stats !! "avg_lifetime_minutes" = Some g ->
  cardcash_stats !! "avg_lifetime_minutes" = Some c ->
  gcx_stats' !! "avg_lifetime_minutes" = Some g' ->
  cardcash_stats' !! "avg_lifetime_minutes" = Some c' ->
  (g <= g')%Q -> (c <= c')%Q ->
  rec_minutes (recommend_scraping_frequency gcx_stats cardcash_stats)
  <= rec_minutes (recommend_scraping_frequency gcx_stats' cardcash_stats').
Proof.
  intros Hg Hc Hg' Hc' Hgg Hcc.
  rewrite !rec_minutes_by_min_lifetime. cbv zeta.
  rewrite (lifetime_of_reported _ _ Hg), (lifetime_of_reported _ _ Hc),
    (lifetime_of_reported _ _ Hg'), (lifetime_of_reported _ _ Hc').
  unfold py_min, below, lifetime_ltb.
  lifetime_cases; try lia; exfalso; lra.
Qed.

Lemma recommendation_monotone_witness :
  rec_minutes (recommend_scraping_frequency (stats_of 0 50) (stats_of 0 70))
  <= rec_minutes (recommend_scraping_frequency (stats_of 0 90) (stats_of 0 70)).
Proof.
  apply (recommendation_monotone (stats_of 0 50) (stats_of 0 70)
           (stats_of 0 90) (stats_of 0 70) 50 70 90 70);
    try reflexivity; unfold Qle; simpl; lia.
Defined.

(** X23.  The dashboard always hands both averages to the recommendation,
    so its confidence is "high" even without data; and as soon as one
    source has no recorded lifetime, its average of 0 makes the summary
    return 30 minutes. *)
Theorem summary_without_history (gcx cardcash : SourceHistory) :
  let r := summary_recommendation gcx cardcash in
  rec_confidence r = "high"
  /\ (lifetimes gcx = [] \/ lifetimes cardcash = [] -> rec_minutes r = 30).
Proof.
  cbv zeta. unfold summary_recommendation. split.
  - unfold recommend_scraping_frequency. cbn [rec_confidence].
    unfold lifetime_of. rewrite !lookup_insert_eq.
    unfold py_min. destruct (lifetime_ltb _ _); reflexivity.
  - intros [E|E]; rewrite E;
      eapply (zero_lifetime_minutes _ _ 0%Q); try reflexivity;
      [left|right]; apply lookup_insert_eq.
Qed.

Lemma summary_without_history_witness :
  rec_minutes (summary_recommendation no_gcx_history cardcash_history) = 30.
Proof.
  apply (summary_without_history no_gcx_history cardcash_history).
  left. reflexivity.
Defined.


(* ================================================================== *)
(** * What the statistics count *)

Lemma last_In (l : list Z) (d : Z) : l <> [] -> In (List.last l d) l.
Proof.
  induction l as [|x l IH]; [congruence|]. intros _.
  destruct l as [|y l]; [left; reflexivity|].
  right. apply IH. discriminate.
Qed.

Lemma counted_gone (num_snapshots : Z) (item : string * list Z) :
  counted num_snapshots item = gone num_snapshots item.
Proof.
  unfold counted, gone, seen_twice, last_before.
  destruct item as [k l]. cbn [snd].
  destruct (Nat.leb_spec 2 (length l)) as [H2|H2]; [|reflexivity].
  cbn [andb]. apply eq_true_iff_eq.
  rewrite Z.ltb_lt, forallb_forall. split.
  - intros Hlast x Hx. apply Z.ltb_lt.
    pose proof (sort_last_upper l x Hx). lia.
  - intros Hall. apply Z.ltb_lt. apply Hall. apply sort_In.
    apply last_In. intros E. apply (f_equal (@length Z)) in E.
    rewrite sort_length in E. simpl in E. lia.
Qed.

(** X24.  For a session with at least one item, 'total_deals_seen' is the
    number of items, and 'disappeared_deals' is the number of items that
    were observed at least twice and never at or after [num_snapshots]:
    an item observed once is counted as seen, never as disappeared. *)
Theorem stats_counts
    (deal_timeline : Timeline) (num_snapshots : Z) (interval_minutes : Q) :
  size deal_timeline <> 0%nat ->
  let result :=
    _calculate_turnover_stats deal_timeline num_snapshots interval_minutes in
  let items := map_to_list deal_timeline in
  result !! "total_deals_seen" = Some (inject_Z (Z.of_nat (length items)))
  /\ result !! "disappeared_deals"
     = Some (inject_Z (Z.of_nat
               (length (List.filter (gone num_snapshots) items)))).
Proof.
  intros Hne. cbv zeta. split.
  - rewrite stats_total, length_map_to_list. reflexivity.
  - rewrite stats_disappeared_counted by exact Hne.
    rewrite (List.filter_ext _ _ (counted_gone num_snapshots)). reflexivity.
Qed.

Lemma stats_counts_witness :
  _calculate_turnover_stats session_a_vanishes 3 10 !! "disappeared_deals"
  = Some (inject_Z 0).
Proof.
  apply (stats_counts session_a_vanishes 3 10).
  vm_compute. discriminate.
Defined.

Lemma run_loop_all_skipped (num_snapshots : Z) (interval_minutes : Q)
      (items : list (string * list Z)) (acc : LoopState) :
  Forall (fun item => (length (snd item) < 2)%nat) items ->
  foldl (loop_body num_snapshots interval_minutes) acc items = acc.
Proof.
  induction 1 as [|item items Hitem _ IH]; [reflexivity|].
  simpl. unfold loop_body at 2. rewrite sort_length.
  destruct (Nat.ltb_spec (length (snd item)) 2); [exact IH|lia].
Qed.

(** X25.  When no item of a non-empty session was observed twice, there is
    no lifetime sample: the average lifetime is 0, no deal is counted as
    disappeared, and the turnover rate is 0 out of the number of items. *)
Theorem stats_without_lifetime_samples
    (deal_timeline : Timeline) (num_snapshots : Z) (interval_minutes : Q) :
  size deal_timeline <> 0%nat ->
  map_Forall (fun _ appearances => (length appearances < 2)%nat)
             deal_timeline ->
  let result :=
    _calculate_turnover_stats deal_timeline num_snapshots interval_minutes in
  result !! "avg_lifetime_minutes" = Some 0%Q
  /\ result !! "disappeared_deals" = Some (inject_Z 0)
  /\ result !! "turnover_rate"
     = Some (inject_Z 0 / inject_Z (Z.of_nat (size deal_timeline)))%Q.
Proof.
  intros Hne Hall. cbv zeta.
  assert (Hloop : run_loop num_snapshots interval_minutes
                    (map_to_list deal_timeline) = mkLoop [] 0).
  { unfold run_loop. apply run_loop_all_skipped.
    apply map_Forall_to_list in Hall.
    eapply Forall_impl; [exact Hall|]. intros [k l] Hl. exact Hl. }
  rewrite stats_avg_lifetime, stats_disappeared, stats_turnover_rate
    by exact Hne.
  rewrite Hloop. repeat split; reflexivity.
Qed.

Lemma stats_without_lifetime_samples_witness :
  _calculate_turnover_stats session_seen_once 3 10 !! "avg_lifetime_minutes"
  = Some 0%Q.
Proof.
  apply (stats_without_lifetime_samples session_seen_once 3 10).
  - vm_compute. discriminate.
  - unfold session_seen_once. apply map_Forall_insert_2; [simpl; lia|].
    apply map_Forall_singleton. simpl. lia.
Defined.

(* ================================================================== *)
(** * The average lifetime and the check interval *)

(** C10 (as amended).  When every item's observations are strictly
    increasing and the check interval is a whole number of minutes, not
    negative, every lifetime sample is that interval times a whole number
    of checks, at least 2; so the sum of the samples is at least twice the
    interval times their number, and their mean, the sum divided by the
    number exactly, is at least twice the interval whenever it is not 0. *)
Theorem C10_whole_interval_mean_spans_two_checks
    (deal_timeline : Timeline) (num_snapshots interval_minutes : Z) :
  0 <= interval_minutes ->
  map_Forall (fun _ appearances => strictly_increasing appearances = true)
             deal_timeline ->
  let samples :=
    deal_lifespans (run_loop num_snapshots (inject_Z interval_minutes)
                      (map_to_list deal_timeline)) in
  let avg :=
    get "avg_lifetime_minutes" 0
      (_calculate_turnover_stats deal_timeline num_snapshots
         (inject_Z interval_minutes)) in
  Forall (fun x => exists checks : Z,
                     2 <= checks
                     /\ x = (inject_Z checks * inject_Z interval_minutes)%Q)
         samples
  /\ (inject_Z (2 * interval_minutes) * inject_Z (Z.of_nat (length samples))
      <= Qsum samples)%Q
  /\ (~ (avg == 0)%Q -> (inject_Z (2 * interval_minutes) <= avg)%Q).
Proof.
  intros Hint Hinc samples avg.
  assert (Hsamples :
            Forall (fun x => exists checks : Z,
                      2 <= checks
                      /\ x = (inject_Z checks * inject_Z interval_minutes)%Q)
                   samples).
  { unfold samples, run_loop. apply foldl_lifespans; [constructor|].
    apply map_Forall_to_list in Hinc.
    eapply Forall_impl; [exact Hinc|].
    intros [k l] Hl Hlen. simpl in *.
    rewrite (sort_strictly_increasing l Hl).
    eexists. split; [|reflexivity].
    apply strictly_increasing_span; assumption. }
  assert (Hlower : Forall (fun x => (inject_Z (2 * interval_minutes) <= x)%Q)
                     samples).
  { eapply Forall_impl; [exact Hsamples|].
    intros x (checks & Hc & ->).
    rewrite <- inject_Z_mult, <- Zle_Qle. nia. }
  split; [exact Hsamples|]. split.
  - rewrite Qmult_comm. apply Qsum_lower. exact Hlower.
  - intros Hnz.
    assert (E : (inject_Z (2 * interval_minutes)
                 == 2 * inject_Z interval_minutes)%Q).
    { rewrite inject_Z_mult. reflexivity. }
    rewrite E.
    apply (exact_mean_spans_two_checks deal_timeline num_snapshots
             (inject_Z interval_minutes)); [|exact Hinc|exact Hnz].
    change 0%Q with (inject_Z 0). rewrite <- Zle_Qle. exact Hint.
Qed.

Lemma C10_witness :
  (inject_Z (2 * 10)
   <= get "avg_lifetime_minutes" 0
        (_calculate_turnover_stats session_one_item 5 (inject_Z 10)))%Q.
Proof.
  apply (C10_whole_interval_mean_spans_two_checks session_one_item 5 10).
  - lia.
  - apply map_Forall_singleton. reflexivity.
  - vm_compute. discriminate.
Defined.

(** C10 as stated fails in the arithmetic of the code: with a check
    interval of 0.7 and three items seen at checks 1 and 2, every list is
    strictly increasing, the samples are 1.4 each, and their binary64 mean
    is not 0 and lies below 2 * 0.7. *)
Lemma C10_float_mean_below_twice_interval :
  let avg := avg_lifetime_minutes_float session_three_twice 2 seven_tenths in
  forallb (fun item => strictly_increasing (snd item))
          (map_to_list session_three_twice) = true
  /\ PrimFloat.eqb avg PrimFloat.zero = false
  /\ PrimFloat.ltb avg (PrimFloat.mul (float_of_Z 2) seven_tenths) = true.
Proof. vm_compute. repeat split; reflexivity. Qed.

(* ================================================================== *)
(** * The history as loaded from its file *)

Lemma shaped_loaded_of (h : AdjustmentHistory) : shaped (loaded_of h) = Some h.
Proof. destruct h as [log [t u d stamp]]. reflexivity. Qed.

Lemma shaped_inv (raw : LoadedHistory) (h : AdjustmentHistory) :
  shaped raw = Some h -> raw = loaded_of h.
Proof.
  destruct raw as [[log|] [[[t|] [u|] [d|] [stamp|]]|]]; simpl;
    try discriminate.
  intros [= <-]. reflexivity.
Qed.

Lemma embed_typed (self : LoadedScraper) (h : AdjustmentHistory) :
  shaped (l_adjustment_history self) = Some h -> embed (typed self h) = self.
Proof.
  intros Hs. apply shaped_inv in Hs. destruct self; simpl in *. subst.
  reflexivity.
Qed.

Lemma log_adjustment_loaded_embed (env : Env) (old_freq new_freq : Z)
      (why conf : string) (metrics : TurnoverData) (self : AdaptiveScraper) :
  _log_adjustment_loaded env old_freq new_freq why conf metrics (embed self)
  = (embed (_log_adjustment env old_freq new_freq why conf metrics self), true).
Proof.
  destruct self as [cur lo hi thr cnt run lat [log [t u d stamp]]].
  unfold _log_adjustment_loaded, _log_adjustment, _save_adjustment_history,
    _save_adjustment_history_loaded, embed, loaded_of, adjustment_record.
  simpl. destruct (new_freq <? old_freq), (log_file_writable env); reflexivity.
Qed.

(** On a history of the shape this class writes, the loaded object behaves
    as the typed one. *)
Lemma adjust_frequency_loaded_embed (env : Env)
      (turnover_data : option TurnoverData) (self : AdaptiveScraper) :
  adjust_frequency_loaded env turnover_data (embed self)
  = embed (adjust_frequency env turnover_data self).
Proof.
  unfold adjust_frequency_loaded, adjust_frequency.
  change (l_scrape_count (embed self)) with (scrape_count self).
  change (l_adjustment_threshold (embed self)) with (adjustment_threshold self).
  destruct (scrape_count self <? adjustment_threshold self); [reflexivity|].
  destruct (effective_data env turnover_data) as [data|]; [|reflexivity].
  destruct (extract_metrics data) as [[t l]|]; [|reflexivity].
  assert (Hrules : apply_rules (settings_of (embed self)) t l
                   = apply_rules self t l) by (destruct self; reflexivity).
  assert (Hclamp : forall f, clamp (settings_of (embed self)) f = clamp self f)
    by (destruct self; reflexivity).
  rewrite Hrules, Hclamp.
  change (l_current_frequency (embed self)) with (current_frequency self).
  set (d := apply_rules self t l).
  set (new := clamp self (decided_frequency d)).
  change (l_with_current_frequency new (embed self))
    with (embed (with_current_frequency new self)).
  destruct (negb (current_frequency self =? new)); [|reflexivity].
  rewrite log_adjustment_loaded_embed. reflexivity.
Qed.

Lemma adjust_frequency_loaded_shaped (env : Env)
      (turnover_data : option TurnoverData) (self : LoadedScraper)
      (h : AdjustmentHistory) :
  shaped (l_adjustment_history self) = Some h ->
  adjust_frequency_loaded env turnover_data self
  = embed (adjust_frequency env turnover_data (typed self h)).
Proof.
  intros Hs. rewrite <- adjust_frequency_loaded_embed.
  rewrite (embed_typed self h Hs). reflexivity.
Qed.

(** With a history of the shape this class writes, an eligible call with
    readable data records exactly the changes of the interval and always
    sets [last_adjustment_time]. *)
Lemma shaped_history_records_changes
    (env : Env) (turnover_data data : option TurnoverData)
    (avg_turnover avg_lifetime : Q) (self : LoadedScraper)
    (h : AdjustmentHistory) :
  l_adjustment_threshold self <= l_scrape_count self ->
  effective_data env turnover_data = Some data ->
  extract_metrics data = Some (avg_turnover, avg_lifetime) ->
  shaped (l_adjustment_history self) = Some h ->
  let self' := adjust_frequency_loaded env turnover_data self in
  exists h',
    shaped (l_adjustment_history self') = Some h'
    /\ ((exists r, adjustments h' = adjustments h ++ [r])
        <-> l_current_frequency self' <> l_current_frequency self)
    /\ (l_current_frequency self' = l_current_frequency self -> h' = h)
    /\ l_last_adjustment_time self' = Some (now env).
Proof.
  intros Hn Hd Hm Hs. cbv zeta.
  rewrite (adjust_frequency_loaded_shaped env turnover_data self h Hs).
  destruct (typed_history_records_changes env turnover_data data avg_turnover
              avg_lifetime (typed self h) Hn Hd Hm)
    as (_ & Hiff & _ & Hsame & Htime).
  exists (adjustment_history (adjust_frequency env turnover_data (typed self h))).
  split; [apply shaped_loaded_of|].
  split; [exact Hiff|]. split; [exact Hsame|exact Htime].
Qed.

(** C7 (the code departs from the claim).  An object created over the file
    that the dashboard writes under the same name keeps that dictionary as
    its history.  An eligible call with readable data then moves the
    interval from 60 to 15, but [_log_adjustment] raises on the missing
    "adjustments" key and the handler of [adjust_frequency] swallows it: no
    record is appended and [last_adjustment_time] is not set.  Over a
    history of this class the same call appends the record and sets the
    time. *)
Theorem C7_dashboard_history_loses_record :
  let data := Some (data_of (stats_of 60 100) (stats_of 60 100)) in
  let self := over_dashboard_file in
  let self' := adjust_frequency_loaded env0 data self in
  let own' := adjust_frequency_loaded env0 data over_own_file in
  (l_adjustment_threshold self <=? l_scrape_count self) = true
  /\ extract_metrics data = Some ((60 + 60) / 2, (100 + 100) / 2)%Q
  /\ l_current_frequency self = 60
  /\ l_current_frequency self' = 15
  /\ l_adjustment_history self' = l_adjustment_history self
  /\ loaded_adjustments (l_adjustment_history self') = None
  /\ l_last_adjustment_time self' = None
  /\ l_current_frequency own' = 15
  /\ (length <$> loaded_adjustments (l_adjustment_history own')) = Some 1%nat
  /\ l_last_adjustment_time own' = Some (now env0).
Proof. vm_compute. repeat split; reflexivity. Qed.

(** X9.  On an object whose history has the shape this class writes, when
    an eligible call changes the interval but the log file cannot be
    opened, the change still takes place in memory: the record is
    appended, 'total_adjustments' grows by one and [last_adjustment_time]
    is set; only the 'last_updated' stamp keeps its old value, whereas a
    successful save sets it to the current time. *)
Theorem adjust_frequency_survives_save_failure
    (env : Env) (turnover_data data : option TurnoverData)
    (avg_turnover avg_lifetime : Q) (self : LoadedScraper)
    (h : AdjustmentHistory) :
  l_adjustment_threshold self <= l_scrape_count self ->
  effective_data env turnover_data = Some data ->
  extract_metrics data = Some (avg_turnover, avg_lifetime) ->
  shaped (l_adjustment_history self) = Some h ->
  let self' := adjust_frequency_loaded env turnover_data self in
  l_current_frequency self' <> l_current_frequency self ->
  exists h',
    shaped (l_adjustment_history self') = Some h'
    /\ (exists r, adjustments h' = adjustments h ++ [r]
                  /\ old_frequency r = l_current_frequency self
                  /\ new_frequency r = l_current_frequency self')
    /\ total_adjustments (stats h') = total_adjustments (stats h) + 1
    /\ l_last_adjustment_time self' = Some (now env)
    /\ (log_file_writable env = false ->
        last_updated (stats h') = last_updated (stats h))
    /\ (log_file_writable env = true -> last_updated (stats h') = now env).
Proof.
  intros Hn Hd Hm Hs. cbv zeta.
  rewrite (adjust_frequency_loaded_shaped env turnover_data self h Hs).
  intros Hne.
  exists (adjustment_history (adjust_frequency env turnover_data (typed self h))).
  split; [apply shaped_loaded_of|].
  apply (typed_adjust_frequency_survives_save_failure env turnover_data data
           avg_turnover avg_lifetime (typed self h) Hn Hd Hm).
  exact Hne.
Qed.

(** An object over a history of this class whose log file has since
    become unwritable. *)
Lemma adjust_frequency_survives_save_failure_witness :
  exists h',
    shaped (l_adjustment_history
              (adjust_frequency_loaded env_readonly
                 (Some (data_of (stats_of 60 100) (stats_of 60 100)))
                 over_own_file)) = Some h'
    /\ total_adjustments (stats h') = 0 + 1.
Proof.
  destruct (adjust_frequency_survives_save_failure env_readonly
              (Some (data_of (stats_of 60 100) (stats_of 60 100)))
              (Some (data_of (stats_of 60 100) (stats_of 60 100)))
              ((60 + 60) / 2)%Q ((100 + 100) / 2)%Q over_own_file
              (mkHistory [] (mkHistoryStats 0 0 0 (now env0))))
    as (h' & Hs & _ & Ht & _).
  - simpl. lia.
  - reflexivity.
  - reflexivity.
  - reflexivity.
  - vm_compute. discriminate.
  - exists h'. split; [exact Hs|exact Ht].
Defined.

(** X10.  On an object whose history has the shape this class writes, the
    record appended by an eligible call that changes the interval carries
    the time of the call, the scrape count, and the reason and confidence
    of the rule that fired.  Its metrics are read with default 0: the
    logged average lifetime is the one the rules used when both sources
    report a lifetime, while for sources that report none the log holds 0
    where the rules used 120. *)
Theorem recorded_adjustment_contents
    (env : Env) (turnover_data : option TurnoverData) (data : TurnoverData)
    (gcx_stats cardcash_stats : Stats) (self : LoadedScraper)
    (h : AdjustmentHistory) :
  l_adjustment_threshold self <= l_scrape_count self ->
  effective_data env turnover_data = Some (Some data) ->
  source_stats "gcx_stats" data = Some gcx_stats ->
  source_stats "cardcash_stats" data = Some cardcash_stats ->
  shaped (l_adjustment_history self) = Some h ->
  let self' := adjust_frequency_loaded env turnover_data self in
  l_current_frequency self' <> l_current_frequency self ->
  exists h' r avg_turnover avg_lifetime,
    shaped (l_adjustment_history self') = Some h'
    /\ adjustments h' = adjustments h ++ [r]
    /\ extract_metrics (Some data) = Some (avg_turnover, avg_lifetime)
    /\ timestamp r = now env
    /\ metrics_scrape_count (metrics r) = l_scrape_count self
    /\ Some (reason r) = fired_rule env turnover_data (typed self h)
    /\ confidence r
       = decided_confidence
           (apply_rules (typed self h) avg_turnover avg_lifetime)
    /\ gcx_turnover (metrics r) = get "turnover_rate" 0 gcx_stats
    /\ cardcash_turnover (metrics r) = get "turnover_rate" 0 cardcash_stats
    /\ (is_Some (gcx_stats !! "avg_lifetime_minutes") ->
        is_Some (cardcash_stats !! "avg_lifetime_minutes") ->
        avg_lifetime_minutes (metrics r) = avg_lifetime)
    /\ (gcx_stats !! "avg_lifetime_minutes" = None ->
        cardcash_stats !! "avg_lifetime_minutes" = None ->
        avg_lifetime_minutes (metrics r) = ((0 + 0) / 2)%Q
        /\ avg_lifetime = ((120 + 120) / 2)%Q).
Proof.
  intros Hn Hd Hg Hc Hs. cbv zeta.
  rewrite (adjust_frequency_loaded_shaped env turnover_data self h Hs).
  intros Hne.
  destruct (typed_recorded_adjustment_contents env turnover_data data
              gcx_stats cardcash_stats (typed self h) Hn Hd Hg Hc Hne)
    as (r & t & l & Hrest).
  exists (adjustment_history (adjust_frequency env turnover_data (typed self h))),
    r, t, l.
  split; [apply shaped_loaded_of|exact Hrest].
Qed.

Lemma recorded_adjustment_contents_witness :
  exists h' r,
    shaped (l_adjustment_history
              (adjust_frequency_loaded env0 (Some no_items_data) over_own_file))
    = Some h'
    /\ adjustments h' = [r]
    /\ avg_lifetime_minutes (metrics r) = ((0 + 0) / 2)%Q.
Proof.
  destruct (recorded_adjustment_contents env0 (Some no_items_data)
              no_items_data (_calculate_turnover_stats ∅ 3 10)
              (_calculate_turnover_stats ∅ 3 10) over_own_file
              (mkHistory [] (mkHistoryStats 0 0 0 (now env0))))
    as (h' & r & t & l & Hs & Hlog & _ & _ & _ & _ & _ & _ & _ & _ & Hzero).
  - simpl. lia.
  - reflexivity.
  - reflexivity.
  - reflexivity.
  - reflexivity.
  - vm_compute. discriminate.
  - exists h', r. split; [exact Hs|]. split; [exact Hlog|].
    apply Hzero; reflexivity.
Defined.

(* ================================================================== *)
(** * The two threads on one object *)

Lemma scraping_pass_count_only (x : Pass) (p : Poller) :
  ~ (adjustment_threshold (scraper p) <= scrape_count (scraper p) + 1
     /\ (scrape_count (scraper p) + 1) mod 4 = 0) ->
  scraping_pass x p = count_only x p.
Proof.
  intros Hno. unfold scraping_pass, count_only.
  destruct (negb (running (scraper p))); [reflexivity|].
  destruct (negb (process_deals_ok x)); [reflexivity|].
  simpl.
  destruct (Z.leb_spec (adjustment_threshold (scraper p))
              (scrape_count (scraper p) + 1));
    destruct (Z.eqb_spec ((scrape_count (scraper p) + 1) mod 4) 0);
    simpl; try reflexivity.
  exfalso. apply Hno. split; assumption.
Qed.

Lemma perform_frame (p : Poller) (a : Activity) :
  running (scraper p) = true ->
  running (scraper (perform p a)) = true
  /\ adjustment_threshold (scraper (perform p a))
     = adjustment_threshold (scraper p)
  /\ scrape_count (scraper (perform p a))
     = scrape_count (scraper p)
       + Z.of_nat (completed (passes_of [a])).
Proof.
  intros Er. destruct a as [x|env data]; simpl.
  - split; [rewrite scraping_pass_running; exact Er|].
    destruct (scraping_pass_count x p Er) as [Hc _].
    split.
    + unfold scraping_pass. rewrite Er. simpl.
      destruct (process_deals_ok x); simpl; [|reflexivity].
      destruct (_ && _); simpl; [|reflexivity].
      destruct (adjust_frequency_frame (pass_env x) None
                  (after_scrapes 1 (scraper p))) as (_ & _ & -> & _).
      reflexivity.
    + rewrite Hc. unfold completed. simpl.
      destruct (process_deals_ok x); simpl; lia.
  - rewrite Er. simpl.
    destruct (adjust_frequency_frame env data (scraper p))
      as (_ & _ & -> & -> & ->).
    unfold completed. simpl. repeat split; [exact Er|lia].
Qed.

(** X12.  In any sequence of whole activities of the two threads on the
    shared object (passes of the scraping thread and [adjust_frequency]
    calls of the monitoring thread, in any order), the passes do nothing
    but count, that is, add one to [scrape_count] and append the entry of
    [scrape_history], as long as the scrape numbers they complete include
    no multiple of 4 at or beyond the threshold: the interval, the
    adjustment history and [last_adjustment_time] are then what the calls
    of the monitoring thread made them. *)
Theorem interleaved_passes_only_count (activities : list Activity) (p : Poller) :
  running (scraper p) = true ->
  (forall n, scrape_count (scraper p) < n
             <= scrape_count (scraper p)
                + Z.of_nat (completed (passes_of activities)) ->
             ~ (adjustment_threshold (scraper p) <= n /\ n mod 4 = 0)) ->
  foldl perform p activities = foldl perform_counting p activities.
Proof.
  revert p. induction activities as [|a activities IH]; intros p Er Hno;
    [reflexivity|].
  assert (Happ : completed (passes_of (a :: activities))
                 = (completed (passes_of [a])
                    + completed (passes_of activities))%nat).
  { unfold completed, passes_of. simpl. rewrite app_nil_r.
    rewrite List.filter_app, length_app. reflexivity. }
  destruct (perform_frame p a Er) as (Er' & Hthr & Hcnt).
  assert (Hstep : perform p a = perform_counting p a).
  { destruct a as [x|env data]; [|reflexivity]. simpl.
    destruct (process_deals_ok x) eqn:Hok.
    - apply scraping_pass_count_only. apply Hno.
      rewrite Happ. unfold completed at 1. simpl. rewrite Hok. simpl length. lia.
    - unfold scraping_pass, count_only. rewrite Hok.
      destruct (negb (running (scraper p))); reflexivity. }
  simpl. rewrite <- Hstep. apply IH; [exact Er'|].
  intros n Hn. rewrite Hthr. apply Hno. rewrite Happ. lia.
Qed.

Lemma interleaved_passes_only_count_witness :
  foldl perform fresh_poller interleaved_run
  = foldl perform_counting fresh_poller interleaved_run
  /\ current_frequency (scraper (foldl perform fresh_poller interleaved_run))
     = 70
  /\ scrape_count (scraper (foldl perform fresh_poller interleaved_run)) = 7.
Proof.
  split; [|split; reflexivity].
  apply (interleaved_passes_only_count interleaved_run fresh_poller).
  - reflexivity.
  - intros n Hn [Ht Hm].
    change (0 < n <= 7) in Hn. change (5 <= n) in Ht.
    assert (Hc : n = 5 \/ n = 6 \/ n = 7) by lia.
    destruct Hc as [->|[->| ->]]; discriminate Hm.
Defined.
